(** * LoginScriptPlugin: a shallow embedding of LoginScriptPlugin.c

    The plugin is an authorization mechanism: at a login step it looks
    for an administrator-owned script, checks that nobody but root can
    tamper with it ([VerifyScript]), runs it under the target identity
    ([ExecuteScript]) and turns the exit status of the script into an
    allow/deny decision ([MechanismInvoke]).

    The C functions are embedded as Rocq functions.  What the operating
    system and the authorization host answer (lstat, fork, fcntl, execl,
    waitpid, the host callbacks) is read from explicit records, and every
    observable action is appended to a trace of [event]s. *)

From Stdlib Require Import ZArith Ascii String List Bool Lia.
From stdpp Require Import gmap strings list pretty.

Local Open Scope string_scope.
Local Open Scope list_scope.
Local Open Scope Z_scope.

(** ** Constants of the system headers *)

Module Sys.

(** <sys/stat.h> file-mode bits (octal in the header). *)
Definition S_IFMT  : Z := 61440.   (* 0170000 *)
Definition S_IFDIR : Z := 16384.   (* 0040000 *)
Definition S_IFREG : Z := 32768.   (* 0100000 *)
Definition S_IFLNK : Z := 40960.   (* 0120000 *)
Definition S_IXUSR : Z := 64.      (* 0000100 *)
Definition S_IWGRP : Z := 16.      (* 0000020 *)
Definition S_IWOTH : Z := 2.       (* 0000002 *)

Definition S_ISLNK (m : Z) : bool := Z.land m S_IFMT =? S_IFLNK.

(** <sysexits.h> *)
Definition EX_OSERR  : Z := 71.
Definition EX_NOPERM : Z := 77.

(** <sys/param.h>, <sys/syslimits.h>, <unistd.h>, <sys/errno.h> *)
Definition MAXPATHLEN    : Z := 1024.
Definition OPEN_MAX      : Z := 10240.
Definition STDERR_FILENO : Z := 2.
Definition EINTR         : Z := 4.
Definition EBADF         : Z := 9.
Definition ECHILD        : Z := 10.
Definition EINVAL        : Z := 22.

(** <asl.h> *)
Definition ASL_LEVEL_ERR     : Z := 3.
Definition ASL_LEVEL_WARNING : Z := 4.
Definition ASL_LEVEL_NOTICE  : Z := 5.
Definition ASL_LEVEL_DEBUG   : Z := 7.

(** <sys/wait.h>: the macros that take a wait status apart. *)
Definition _WSTATUS (x : Z) : Z := Z.land x 127.            (* x & 0177 *)
Definition _WSTOPPED : Z := 127.                            (* 0177 *)
Definition WIFSIGNALED (x : Z) : bool :=
  negb (_WSTATUS x =? _WSTOPPED) && negb (_WSTATUS x =? 0).
Definition WTERMSIG (x : Z) : Z := _WSTATUS x.
Definition WEXITSTATUS (x : Z) : Z := Z.land (Z.shiftr x 8) 255.

(** Width of uid_t, gid_t (unsigned) and int. *)
Definition UINT32_MOD : Z := 4294967296.
Definition INT32_MAX  : Z := 2147483647.

End Sys.
Export Sys.

(** ** Security framework values *)

Inductive AuthorizationResult :=
| kAuthorizationResultAllow
| kAuthorizationResultDeny.

(** The numeric value of the enumerators (Allow = 0, Deny = 1). *)
Definition AuthorizationResult_code (r : AuthorizationResult) : Z :=
  match r with
  | kAuthorizationResultAllow => 0
  | kAuthorizationResultDeny => 1
  end.

Definition OSStatus := Z.
Definition errAuthorizationSuccess  : OSStatus := 0.
Definition errAuthorizationInternal : OSStatus := -60008.
(** The version number of the callback table in <Security/AuthorizationPlugin.h>
    of the SDK of 2014; only its use as a lower bound matters here. *)
Definition kAuthorizationCallbacksVersion : Z := 1.

(** ** Observable actions *)

Inductive event :=
| asl_log (level : Z) (format : string)
| ev_malloc
| ev_fork
| ev_setgid (gid : Z)
| ev_setuid (uid : Z)
| ev_fcntl_cloexec (fd : Z)
| ev_execl (path : string) (argv : list string)
| ev_waitpid (pid : Z)
| ev_GetContextValue (key : string)
| ev_SetResult (r : AuthorizationResult).

Definition is_log (e : event) : bool :=
  match e with asl_log _ _ => true | _ => false end.

Definition is_spawn (e : event) : bool :=
  match e with
  | ev_fork | ev_execl _ _ => true
  | _ => false
  end.

(** ** The file system as lstat sees it *)

Record stat := mk_stat {
  st_dev  : Z;
  st_mode : Z;
  st_uid  : Z;
  st_gid  : Z
}.

(** [fs !! path] is what [lstat(path, &info)] stores; [None] is a failing
    lstat. *)
Definition lstat (fs : gmap string stat) (path : string) : option stat :=
  fs !! path.

(** ** dirname(3)

    libc's BSD implementation, on the characters of the path.  [endp] is
    the index the C pointer of the same name stands at.  The C function
    answers in a static buffer; [VerifyScript] has read its path (lstat,
    strcmp) before it calls dirname and only hands the answer on, so the
    answer is taken by value. *)

Definition is_slash (c : option ascii) : bool :=
  match c with
  | Some c => Ascii.eqb c "/"%char
  | None => false
  end.

(** [while (endp > path && *endp == '/') endp--;] *)
Fixpoint back_over_slashes (path : string) (endp : nat) : nat :=
  match endp with
  | O => O
  | S e => if is_slash (String.get endp path)
           then back_over_slashes path e else endp
  end.

(** [while (endp > path && *endp != '/') endp--;] *)
Fixpoint back_to_slash (path : string) (endp : nat) : nat :=
  match endp with
  | O => O
  | S e => if is_slash (String.get endp path)
           then endp else back_to_slash path e
  end.

(** [None] is the NULL that dirname returns with ENAMETOOLONG. *)
Definition dirname (path : string) : option string :=
  if String.eqb path "" then Some "."
  else
    let endp := (String.length path - 1)%nat in
    let endp := back_over_slashes path endp in
    let endp := back_to_slash path endp in
    if Nat.eqb endp 0 then
      Some (if is_slash (String.get 0 path) then "/" else ".")
    else
      let endp := back_over_slashes path (endp - 1) in
      if MAXPATHLEN <? Z.of_nat endp + 2 then None
      else Some (String.substring 0 (endp + 1) path).

(** ** VerifyScript

    [fuel] bounds the depth of the recursion: the C function calls itself
    on the parent directory until the path is "/", which a relative path
    never reaches.  [None] is a recursion that is still going on when the
    fuel is used up.  The result pairs the returned bool with the log
    lines written. *)

Fixpoint VerifyScript (fuel : nat) (fs : gmap string stat) (path : string)
  : option (bool * list event) :=
  match fuel with
  | O => None
  | S fuel' =>
    (* Reject if we can't stat the root. *)
    match lstat fs "/" with
    | None => Some (false, [asl_log ASL_LEVEL_WARNING "Can't stat /"])
    | Some rootInfo =>
    (* Reject if we can't stat the path. *)
    match lstat fs path with
    | None => Some (false, [asl_log ASL_LEVEL_WARNING "Can't stat %s"])
    | Some info =>
      (* Reject if path isn't on boot volume. *)
      if negb (st_dev info =? st_dev rootInfo) then
        Some (false, [asl_log ASL_LEVEL_WARNING "%s is not on boot volume"])
      (* Reject symbolic links. *)
      else if S_ISLNK (st_mode info) then
        Some (false, [asl_log ASL_LEVEL_WARNING "%s is a symbolic link"])
      (* Ensure that it's owned by root. *)
      else if negb (st_uid info =? 0) then
        Some (false, [asl_log ASL_LEVEL_WARNING "%s isn't owned by root"])
      (* Reject world writable paths. *)
      else if negb (Z.land (st_mode info) S_IWOTH =? 0) then
        Some (false, [asl_log ASL_LEVEL_WARNING "%s is world writable"])
      (* Reject group writable paths unless the gid is wheel. *)
      else if negb (Z.land (st_mode info) S_IWGRP =? 0)
              && negb (st_gid info =? 0) then
        Some (false, [asl_log ASL_LEVEL_WARNING "%s is group writable"])
      (* Path must be executable. *)
      else if Z.land (st_mode info) S_IXUSR =? 0 then
        Some (false, [asl_log ASL_LEVEL_WARNING "%s isn't executable"])
      (* Unless we're at the root, recursively check the parent directory. *)
      else if String.eqb path "/" then Some (true, [])
      else
        match dirname path with
        | Some parent => VerifyScript fuel' fs parent
        | None =>
          (* VerifyScript(NULL): lstat("/") succeeds as above, lstat(NULL)
             fails. *)
          Some (false, [asl_log ASL_LEVEL_WARNING "Can't stat %s"])
        end
    end
    end
  end.

(** ** What a process does with a C function

    A call either returns, or the process ends inside it: [exit], a
    successful [execl] (the image is replaced), or an abnormal end (a
    failed [assert], a NULL dereference). *)

Inductive outcome (A : Type) :=
| Returns (a : A)
| Exits (status : Z)
| Execs (path : string) (argv : list string)
| Aborts.
Arguments Returns {A} a.
Arguments Exits {A} status.
Arguments Execs {A} path argv.
Arguments Aborts {A}.

(** ** The kernel as one process sees it *)

(** waitpid is taken to answer: a child that never ends, on which the
    call would block for ever, is not in this model. *)
Inductive wait_result :=
| WaitReaped (status : Z)     (* returns the pid asked for, stores status *)
| WaitFailed (errno : Z).     (* returns -1, stores nothing *)

Record Kernel := mk_Kernel {
  k_fs : gmap string stat;
  (** malloc returns a non-NULL pointer *)
  k_malloc : bool;
  (** return value of fork() in this process: -1, 0 in the child, the pid
      of the child in the parent *)
  k_fork : Z;
  (** sysconf(_SC_OPEN_MAX) *)
  k_sysconf_OPEN_MAX : Z;
  (** fcntl(fd, F_SETFD, FD_CLOEXEC): [None] on success, [Some errno] when
      it returns -1 *)
  k_fcntl_cloexec : Z -> option Z;
  (** execl: [None] when the image is replaced, [Some errno] when it
      returns *)
  k_execl : string -> list string -> option Z;
  k_waitpid : Z -> wait_result;
  (** what the automatic variable childStatus, which has no initialiser,
      holds before waitpid stores into it *)
  k_childStatus : Z
}.

Definition with_fork (k : Kernel) (r : Z) : Kernel :=
  {| k_fs := k_fs k; k_malloc := k_malloc k; k_fork := r;
     k_sysconf_OPEN_MAX := k_sysconf_OPEN_MAX k;
     k_fcntl_cloexec := k_fcntl_cloexec k; k_execl := k_execl k;
     k_waitpid := k_waitpid k; k_childStatus := k_childStatus k |}.

(** ** Formatting *)

(** A uid_t or gid_t holds a value modulo 2^32. *)
Definition to_uid_t (z : Z) : Z := z mod UINT32_MOD.

(** A uid_t passed for a "%d" conversion is read as an int. *)
Definition int_of_uid_t (u : Z) : Z :=
  let w := to_uid_t u in
  if w <=? INT32_MAX then w else w - UINT32_MOD.

(** [snprintf(buf, size, ...)] keeps at most [size - 1] characters of the
    formatted text. *)
Definition snprintf (size : Z) (text : string) : string :=
  String.substring 0 (Z.to_nat (size - 1)) text.

(** ** ExecuteScript *)

(** The loop that marks the descriptors above stderr close-on-exec,
    [for (fd = STDERR_FILENO + 1; fd < maxfd; fd++)], with [n] iterations
    left.  [false] is the [exit(EX_NOPERM)] inside the loop. *)
Fixpoint mark_cloexec (k : Kernel) (n : nat) (fd : Z) : bool * list event :=
  match n with
  | O => (true, [])
  | S n' =>
    match k_fcntl_cloexec k fd with
    | Some errno =>
      if negb (errno =? EBADF) then
        (false,
         [ev_fcntl_cloexec fd;
          asl_log ASL_LEVEL_ERR
            "Marking file descriptor %ld for closing failed with errno %d"])
      else
        let '(ok, tr) := mark_cloexec k n' (fd + 1) in
        (ok, ev_fcntl_cloexec fd :: tr)
    | None =>
      let '(ok, tr) := mark_cloexec k n' (fd + 1) in
      (ok, ev_fcntl_cloexec fd :: tr)
    end
  end.

(** Mark any stray file descriptors for closing. *)
Definition mark_stray_descriptors (k : Kernel) : bool * list event :=
  let maxfd := k_sysconf_OPEN_MAX k in
  let maxfd := if maxfd <? 0 then OPEN_MAX else maxfd in
  let first := STDERR_FILENO + 1 in
  mark_cloexec k (Z.to_nat (maxfd - first)) first.

Definition ExecuteScript (fuel : nat) (k : Kernel)
    (path : string) (uid gid : Z)
  : option (outcome AuthorizationResult * list event) :=
  let result := kAuthorizationResultAllow in
  match VerifyScript fuel (k_fs k) path with
  | None => None
  | Some (false, tr) =>
    Some (Returns result,
          tr ++ [asl_log ASL_LEVEL_WARNING "Not executing %s"])
  | Some (true, tr) =>
    let tr := tr ++ [asl_log ASL_LEVEL_NOTICE "Executing %s as uid %d";
                     ev_fork] in
    let childPid := k_fork k in
    if childPid =? -1 then
      (* Error. *)
      Some (Returns result,
            tr ++ [asl_log ASL_LEVEL_WARNING "Fork failed with errno %d"])
    else if childPid =? 0 then
      (* Child. *)
      let tr :=
        tr ++ (if negb (uid =? 0) || negb (gid =? 0)
               then [ev_setgid gid; ev_setuid uid] else []) in
      match mark_stray_descriptors k with
      | (false, tr_fd) => Some (Exits EX_NOPERM, tr ++ tr_fd)
      | (true, tr_fd) =>
        let uidStr := snprintf 21 (pretty (int_of_uid_t uid)) in
        let argv := [path; uidStr] in
        let tr := tr ++ tr_fd ++ [ev_execl path argv] in
        match k_execl k path argv with
        | None => Some (Execs path argv, tr)
        | Some _ =>
          (* The following only executes if execl() fails. *)
          Some (Exits EX_OSERR,
                tr ++ [asl_log ASL_LEVEL_ERR
                         "Executing %s failed with errno %d"])
        end
      end
    else
      (* Parent. *)
      let tr := tr ++ [asl_log ASL_LEVEL_DEBUG "Waiting for child with pid %d";
                       ev_waitpid childPid] in
      let '(childStatus, tr) :=
        match k_waitpid k childPid with
        | WaitReaped status => (status, tr)
        | WaitFailed _ =>
          (k_childStatus k,
           tr ++ [asl_log ASL_LEVEL_DEBUG
                    "Received errno %d while waiting for child"])
        end in
      if WIFSIGNALED childStatus then
        Some (Returns result,
              tr ++ [asl_log ASL_LEVEL_WARNING "%s died with signal %d"])
      else
        let tr := tr ++ [asl_log ASL_LEVEL_WARNING
                           "%s exited with status %d"] in
        if WEXITSTATUS childStatus =? EX_NOPERM then
          (* Fail authorization. *)
          Some (Returns kAuthorizationResultDeny,
                tr ++ [asl_log ASL_LEVEL_NOTICE "%s denied authorization"])
        else Some (Returns result, tr)
  end.

(** ** How a child process ends, and the status waitpid reports for it *)

Inductive termination :=
| Exited (code : Z)
| Signaled (sig : Z) (core : bool).

(** W_EXITCODE of <sys/wait.h>: the low eight bits of the exit code in
    bits 8..15; the signal number in bits 0..6 and the core flag 0200. *)
Definition wait_status (t : termination) : Z :=
  match t with
  | Exited code => Z.shiftl (Z.land code 255) 8
  | Signaled sig core => Z.lor sig (if core then 128 else 0)
  end.

Definition valid_termination (t : termination) : Prop :=
  match t with
  | Exited code => 0 <= code <= 255
  | Signaled sig _ => 0 < sig < 127
  end.

(** The end of the forked child: it runs [ExecuteScript] with fork
    returning 0; once the image is replaced the script ends as [script]
    says. *)
Definition child_termination (fuel : nat) (k : Kernel)
    (path : string) (uid gid : Z) (script : termination)
  : option termination :=
  match ExecuteScript fuel (with_fork k 0) path uid gid with
  | Some (Exits status, _) => Some (Exited status)
  | Some (Execs _ _, _) => Some script
  | _ => None
  end.

(** ** Core data structures *)

Inductive userContext := kRunAsRoot | kRunAsUser.
Inductive scriptPhase := kRunBeforeHomedirMount | kRunAfterHomedirMount.

Definition userContext_eqb (a b : userContext) : bool :=
  match a, b with
  | kRunAsRoot, kRunAsRoot | kRunAsUser, kRunAsUser => true
  | _, _ => false
  end.

Definition scriptPhase_eqb (a b : scriptPhase) : bool :=
  match a, b with
  | kRunBeforeHomedirMount, kRunBeforeHomedirMount
  | kRunAfterHomedirMount, kRunAfterHomedirMount => true
  | _, _ => false
  end.

(** The four-character constants 'MLSP' and 'PLSP'. *)
Definition fourcc (a b c d : ascii) : Z :=
  Z.of_nat (nat_of_ascii a) * 16777216 + Z.of_nat (nat_of_ascii b) * 65536
  + Z.of_nat (nat_of_ascii c) * 256 + Z.of_nat (nat_of_ascii d).

Definition kMechanismMagic : Z := Eval cbv in fourcc "M" "L" "S" "P".
Definition kPluginMagic : Z := Eval cbv in fourcc "P" "L" "S" "P".

(** An AuthorizationValue: a length and the bytes that [data] points to,
    by offset. *)
Record AuthorizationValue := mk_AuthorizationValue {
  data_length : Z;                                   (* length *)
  data : Z -> Z
}.

(** [*(const uid_t * )value->data]: the four bytes at [data], little
    endian, whatever the length field says.  The read is taken to
    succeed: a NULL or unreadable [data] is not in this model. *)
Definition load_uid_t (value : AuthorizationValue) : Z :=
  Z.land (data value 0) 255
  + Z.land (data value 1) 255 * 256
  + Z.land (data value 2) 255 * 65536
  + Z.land (data value 3) 255 * 16777216.

(** The callbacks of the host, with the engine reference as their first
    argument.  GetContextValue gives its status and the value it stored. *)
Record AuthorizationCallbacks := mk_AuthorizationCallbacks {
  version : Z;
  SetResult : Z -> AuthorizationResult -> OSStatus;
  DidDeactivate : Z -> OSStatus;
  GetContextValue : Z -> string -> OSStatus * AuthorizationValue
}.

(** Pointers that the code tests against NULL are options (records) or
    numbers with 0 for NULL (opaque references). *)
Record PluginRecord := mk_PluginRecord {
  plugin_fMagic : Z;                                 (* fMagic *)
  fCallbacks : option AuthorizationCallbacks;
  fLogClient : Z
}.

Record MechanismRecord := mk_MechanismRecord {
  fMagic : Z;
  fEngine : Z;
  fPlugin : option PluginRecord;
  fContext : userContext;
  fPhase : scriptPhase
}.

Definition MechanismValid (mechanism : option MechanismRecord) : bool :=
  match mechanism with
  | None => false
  | Some m =>
    (fMagic m =? kMechanismMagic)
    && negb (fEngine m =? 0)
    && match fPlugin m with Some _ => true | None => false end
  end.

Definition PluginValid (plugin : option PluginRecord) : bool :=
  match plugin with
  | None => false
  | Some p =>
    (plugin_fMagic p =? kPluginMagic)
    && match fCallbacks p with
       | Some cb => kAuthorizationCallbacksVersion <=? version cb
       | None => false
       end
    && negb (fLogClient p =? 0)
  end.

(** ** Mechanism entry points *)

(** [outMechanism] is the address handed in ([None] for NULL); the second
    component of the result is what the function stored through it
    ([None]: no store; [Some None]: NULL stored). *)
Definition MechanismCreate (k : Kernel)
    (inPlugin : option PluginRecord) (inEngine : Z)
    (mechanismId : option string) (outMechanism : option Z)
  : outcome (OSStatus * option (option MechanismRecord)) * list event :=
  match inPlugin with
  | None => (Aborts, [])
  | Some plugin =>
    let tr := [asl_log ASL_LEVEL_DEBUG
      "LoginScriptPlugin:MechanismCreate: inPlugin=%p, inEngine=%p, mechanismId='%s'"] in
    if negb (PluginValid inPlugin) then (Aborts, tr)
    else if inEngine =? 0 then (Aborts, tr)
    else
    match mechanismId, outMechanism with
    | None, _ | _, None => (Aborts, tr)
    | Some mechanismId, Some _ =>
      (* Parse the mechanism ID. *)
      let parsed :=
        if String.eqb mechanismId "premount-root" then
          Some (kRunAsRoot, kRunBeforeHomedirMount)
        else if String.eqb mechanismId "premount-user" then
          Some (kRunAsUser, kRunBeforeHomedirMount)
        else if String.eqb mechanismId "postmount-root" then
          Some (kRunAsRoot, kRunAfterHomedirMount)
        else if String.eqb mechanismId "postmount-user" then
          Some (kRunAsUser, kRunAfterHomedirMount)
        else None in
      match parsed with
      | None =>
        (Returns (errAuthorizationInternal, Some None),
         tr ++ [asl_log ASL_LEVEL_ERR "Unknown mechanism '%s'"])
      | Some (context, phase) =>
        (* Allocate the space for the MechanismRecord. *)
        let tr := tr ++ [ev_malloc] in
        if negb (k_malloc k) then
          (Returns (errAuthorizationInternal, None), tr)
        else
          (* Fill it in. *)
          let mechanism :=
            {| fMagic := kMechanismMagic;
               fEngine := inEngine;
               fPlugin := Some plugin;
               fContext := context;
               fPhase := phase |} in
          (Returns (errAuthorizationSuccess, Some (Some mechanism)),
           tr ++ [asl_log ASL_LEVEL_DEBUG
                    "LoginScriptPlugin:MechanismCreate: *outMechanism=%p"])
      end
    end
  end.

Definition kLoginScriptDir : string :=
  "/Library/Application Support/LoginScriptPlugin".

Definition NOBODY : Z := -2.

(** [snprintf(scriptPath, sizeof(scriptPath), "%s/%s-%s", ...)] *)
Definition scriptPath (phase : scriptPhase) (context : userContext)
  : string :=
  snprintf MAXPATHLEN
    (kLoginScriptDir +:+ "/"
     +:+ (if scriptPhase_eqb phase kRunBeforeHomedirMount
          then "premount" else "postmount")
     +:+ "-"
     +:+ (if userContext_eqb context kRunAsRoot then "root" else "user")).

Definition MechanismInvoke (fuel : nat) (k : Kernel)
    (inMechanism : option MechanismRecord)
  : option (outcome OSStatus * list event) :=
  match inMechanism with
  | None => Some (Aborts, [])
  | Some mechanism =>
  match fPlugin mechanism with
  | None => Some (Aborts, [])
  | Some plugin =>
    let tr := [asl_log ASL_LEVEL_DEBUG
                 "LoginScriptPlugin:MechanismInvoke: inMechanism=%p"] in
    if negb (MechanismValid inMechanism) then Some (Aborts, tr)
    else
      let result := kAuthorizationResultAllow in
      (* Execute script. *)
      let identity :=
        if userContext_eqb (fContext mechanism) kRunAsRoot then
          Some (0, 0, tr)
        else
          (* Retrieve the uid and gid from the authorization context. *)
          match fCallbacks plugin with
          | None => None
          | Some callbacks =>
            let uid :=
              let '(err, value) :=
                GetContextValue callbacks (fEngine mechanism) "uid" in
              if negb (err =? errAuthorizationSuccess) then to_uid_t NOBODY
              else load_uid_t value in
            let gid :=
              let '(err, value) :=
                GetContextValue callbacks (fEngine mechanism) "gid" in
              if negb (err =? errAuthorizationSuccess) then to_uid_t NOBODY
              else load_uid_t value in
            Some (uid, gid,
                  tr ++ [ev_GetContextValue "uid"; ev_GetContextValue "gid"])
          end in
      match identity with
      | None => Some (Aborts, tr)
      | Some (uid, gid, tr) =>
        let executed :=
          if (uid =? to_uid_t NOBODY) || (gid =? to_uid_t NOBODY) then
            Some (Returns result,
                  [asl_log ASL_LEVEL_WARNING
                     "Can't execute %s script as user, uid lookup failed"])
          else
            ExecuteScript fuel k
              (scriptPath (fPhase mechanism) (fContext mechanism)) uid gid in
        match executed with
        | None => None
        | Some (Returns result, tr_exec) =>
          match fCallbacks plugin with
          | None => Some (Aborts, tr ++ tr_exec)
          | Some callbacks =>
            let tr := tr ++ tr_exec ++ [ev_SetResult result] in
            let err := SetResult callbacks (fEngine mechanism) result in
            let tr :=
              if negb (err =? errAuthorizationSuccess) then
                tr ++ [asl_log ASL_LEVEL_ERR
                         "Setting authorization result failed with error %d"]
              else tr in
            Some (Returns (AuthorizationResult_code result),
                  tr ++ [asl_log ASL_LEVEL_DEBUG
                           "LoginScriptPlugin:MechanismInvoke: result=%d"])
          end
        | Some (Exits status, tr_exec) => Some (Exits status, tr ++ tr_exec)
        | Some (Execs path argv, tr_exec) =>
          Some (Execs path argv, tr ++ tr_exec)
        | Some (Aborts, tr_exec) => Some (Aborts, tr ++ tr_exec)
        end
      end
  end
  end.

(** ** The chain of trust *)

(** The nodes [VerifyScript] looks at: the path, then its lexical parents,
    down to "/". *)
Fixpoint chain (fuel : nat) (path : string) : list string :=
  match fuel with
  | O => []
  | S fuel' =>
    path ::
    (if String.eqb path "/" then []
     else match dirname path with
          | Some parent => chain fuel' parent
          | None => []
          end)
  end.

(** All the tests [VerifyScript] makes on one node, [rootInfo] being the
    lstat of "/". *)
Definition node_check (rootInfo info : stat) : bool :=
  (st_dev info =? st_dev rootInfo)
  && negb (S_ISLNK (st_mode info))
  && (st_uid info =? 0)
  && (Z.land (st_mode info) S_IWOTH =? 0)
  && negb (negb (Z.land (st_mode info) S_IWGRP =? 0)
           && negb (st_gid info =? 0))
  && negb (Z.land (st_mode info) S_IXUSR =? 0).

(** Not a symbolic link, owned by uid 0, not world-writable, and
    group-writable only under gid 0. *)
Definition trusted_node (info : stat) : Prop :=
  S_ISLNK (st_mode info) = false
  /\ st_uid info = 0
  /\ Z.land (st_mode info) S_IWOTH = 0
  /\ (Z.land (st_mode info) S_IWGRP <> 0 -> st_gid info = 0).

Definition owner_executable (info : stat) : Prop :=
  Z.land (st_mode info) S_IXUSR <> 0.

(** The same node with the owner-execute bit cleared. *)
Definition clear_S_IXUSR (info : stat) : stat :=
  {| st_dev := st_dev info;
     st_mode := Z.ldiff (st_mode info) S_IXUSR;
     st_uid := st_uid info;
     st_gid := st_gid info |}.

(** ** Example file systems *)

Definition root_dir : stat :=                       (* drwxr-xr-x root:wheel *)
  {| st_dev := 1; st_mode := Z.lor S_IFDIR 493; st_uid := 0; st_gid := 0 |}.
Definition root_script : stat :=                    (* -rwxr-xr-x root:wheel *)
  {| st_dev := 1; st_mode := Z.lor S_IFREG 493; st_uid := 0; st_gid := 0 |}.
Definition noexec_dir : stat :=                     (* drw-r-xr-x root:wheel *)
  {| st_dev := 1; st_mode := Z.lor S_IFDIR 429; st_uid := 0; st_gid := 0 |}.
Definition world_writable_script : stat :=          (* -rwxr-xrwx root:wheel *)
  {| st_dev := 1; st_mode := Z.lor S_IFREG 495; st_uid := 0; st_gid := 0 |}.

Definition small_fs : gmap string stat :=
  <["/" := root_dir]> (<["/a" := root_dir]> (<["/a/s" := root_script]> ∅)).

Definition installed_fs : gmap string stat :=
  <["/" := root_dir]>
  (<["/Library" := root_dir]>
  (<["/Library/Application Support" := root_dir]>
  (<[kLoginScriptDir := root_dir]>
  (<[scriptPath kRunBeforeHomedirMount kRunAsRoot := root_script]>
  (<[scriptPath kRunAfterHomedirMount kRunAsUser := root_script]> ∅))))).

(** ** Example kernels and hosts *)

(** A process with eight descriptor slots, of which 3 and 4 are open. *)
Definition example_kernel (fork_ret : Z) (fcntl : Z -> option Z)
    (execl_errno : option Z) (wait : wait_result) (childStatus : Z)
  : Kernel :=
  {| k_fs := installed_fs;
     k_malloc := true;
     k_fork := fork_ret;
     k_sysconf_OPEN_MAX := 8;
     k_fcntl_cloexec := fcntl;
     k_execl := fun _ _ => execl_errno;
     k_waitpid := fun _ => wait;
     k_childStatus := childStatus |}.

Definition fcntl_ok (fd : Z) : option Z :=
  if fd <? 5 then None else Some EBADF.

(** Marking descriptor 4 fails with EINVAL. *)
Definition fcntl_failing (fd : Z) : option Z :=
  if fd =? 4 then Some EINVAL else fcntl_ok fd.

Definition child_pid : Z := 4242.

(** The parent collects a child that exited with status 77: one whose
    descriptor marking fails, and one whose descriptor marking works. *)
Definition denying_kernel : Kernel :=
  example_kernel child_pid fcntl_failing None
    (WaitReaped (wait_status (Exited EX_NOPERM))) 0.

Definition script_denies_kernel : Kernel :=
  example_kernel child_pid fcntl_ok None
    (WaitReaped (wait_status (Exited EX_NOPERM))) 0.

(** The bytes of a uid_t in memory. *)
Definition value_of_uid_t (u : Z) : AuthorizationValue :=
  {| data_length := 4; data := fun i => Z.land (Z.shiftr u (8 * i)) 255 |}.

Definition no_value : AuthorizationValue :=
  {| data_length := 0; data := fun _ => 0 |}.

(** A context store that has nothing, and one that has a uid and a gid. *)
Definition empty_context (key : string) : OSStatus * AuthorizationValue :=
  (errAuthorizationInternal, no_value).

Definition user_context (uid gid : Z) (key : string)
  : OSStatus * AuthorizationValue :=
  if String.eqb key "uid" then (errAuthorizationSuccess, value_of_uid_t uid)
  else if String.eqb key "gid" then
    (errAuthorizationSuccess, value_of_uid_t gid)
  else (errAuthorizationInternal, no_value).

Definition example_callbacks
    (context : string -> OSStatus * AuthorizationValue)
  : AuthorizationCallbacks :=
  {| version := kAuthorizationCallbacksVersion;
     SetResult := fun _ _ => errAuthorizationSuccess;
     DidDeactivate := fun _ => errAuthorizationSuccess;
     GetContextValue := fun _ key => context key |}.

Definition example_plugin
    (context : string -> OSStatus * AuthorizationValue) : PluginRecord :=
  {| plugin_fMagic := kPluginMagic;
     fCallbacks := Some (example_callbacks context);
     fLogClient := 1 |}.

Definition example_engine : Z := 7.

Definition example_mechanism
    (context : string -> OSStatus * AuthorizationValue)
    (c : userContext) (p : scriptPhase) : MechanismRecord :=
  {| fMagic := kMechanismMagic;
     fEngine := example_engine;
     fPlugin := Some (example_plugin context);
     fContext := c;
     fPhase := p |}.

(** The same mechanism on a host whose context lookups all fail. *)
Definition with_failing_lookup (m : MechanismRecord) : MechanismRecord :=
  {| fMagic := fMagic m;
     fEngine := fEngine m;
     fPlugin :=
       match fPlugin m with
       | Some plugin =>
         Some {| plugin_fMagic := plugin_fMagic plugin;
                 fCallbacks :=
                   match fCallbacks plugin with
                   | Some cb =>
                     Some {| version := version cb;
                             SetResult := SetResult cb;
                             DidDeactivate := DidDeactivate cb;
                             GetContextValue := fun _ => empty_context |}
                   | None => None
                   end;
                 fLogClient := fLogClient plugin |}
       | None => None
       end;
     fContext := fContext m;
     fPhase := fPhase m |}.

(** What [MechanismInvoke] does when the identity is not resolved:
    both lookups, a warning, the report of Allow ([set_result_err] is the
    status SetResult gives back). *)
Definition unresolved_identity_trace (set_result_err : OSStatus)
  : list event :=
  [asl_log ASL_LEVEL_DEBUG "LoginScriptPlugin:MechanismInvoke: inMechanism=%p";
   ev_GetContextValue "uid"; ev_GetContextValue "gid";
   asl_log ASL_LEVEL_WARNING
     "Can't execute %s script as user, uid lookup failed";
   ev_SetResult kAuthorizationResultAllow]
  ++ (if negb (set_result_err =? errAuthorizationSuccess) then
        [asl_log ASL_LEVEL_ERR
           "Setting authorization result failed with error %d"]
      else [])
  ++ [asl_log ASL_LEVEL_DEBUG "LoginScriptPlugin:MechanismInvoke: result=%d"].

(** ** The other entry points

    Deactivation, destruction and the creation of the plugin act on the
    host, the allocator and the log client as well; their traces hold the
    events above ([mech]) and these. *)

Inductive host_event :=
| mech (e : event)
| ev_asl_open
| ev_asl_close (client : Z)
| ev_syslog (priority : Z) (text : string)
| ev_free
| ev_DidDeactivate (engine : Z).

Definition LOG_ERR : Z := 3.                                 (* <syslog.h> *)

(** Called by the system to deactivate the mechanism. *)
Definition MechanismDeactivate (inMechanism : option MechanismRecord)
  : outcome OSStatus * list host_event :=
  match inMechanism with
  | None => (Aborts, [])
  | Some mechanism =>
  match fPlugin mechanism with
  | None => (Aborts, [])
  | Some plugin =>
    let tr := [mech (asl_log ASL_LEVEL_DEBUG
                 "LoginScriptPlugin:MechanismDeactivate: inMechanism=%p")] in
    if negb (MechanismValid inMechanism) then (Aborts, tr)
    else
      match fCallbacks plugin with
      | None => (Aborts, tr)
      | Some callbacks =>
        let err := DidDeactivate callbacks (fEngine mechanism) in
        (Returns err,
         tr ++ [ev_DidDeactivate (fEngine mechanism);
                mech (asl_log ASL_LEVEL_DEBUG
                        "LoginScriptPlugin:MechanismDeactivate: err=%ld")])
      end
  end
  end.

(** Called by the system when it's done with the mechanism. *)
Definition MechanismDestroy (inMechanism : option MechanismRecord)
  : outcome OSStatus * list host_event :=
  match inMechanism with
  | None => (Aborts, [])
  | Some mechanism =>
  match fPlugin mechanism with
  | None => (Aborts, [])
  | Some plugin =>
    let tr := [mech (asl_log ASL_LEVEL_DEBUG
                 "LoginScriptPlugin:MechanismDestroy: inMechanism=%p")] in
    if negb (MechanismValid inMechanism) then (Aborts, tr)
    else (Returns errAuthorizationSuccess, tr ++ [ev_free])
  end
  end.

(** Called by the system when it's done with the plugin. *)
Definition PluginDestroy (inPlugin : option PluginRecord)
  : outcome OSStatus * list host_event :=
  if negb (PluginValid inPlugin) then (Aborts, [])
  else
    match inPlugin with
    | None => (Aborts, [])
    | Some plugin =>
      (Returns errAuthorizationSuccess,
       [ev_asl_close (fLogClient plugin); ev_free])
    end.

(** The dispatch table: the interface version and the entry points, in
    the order of the slots. *)
Inductive plugin_entry :=
| entry_PluginDestroy
| entry_MechanismCreate
| entry_MechanismInvoke
| entry_MechanismDeactivate
| entry_MechanismDestroy.

Definition kAuthorizationPluginInterfaceVersion : Z := 0.

Definition gPluginInterface : Z * list plugin_entry :=
  (kAuthorizationPluginInterfaceVersion,
   [entry_PluginDestroy; entry_MechanismCreate; entry_MechanismInvoke;
    entry_MechanismDeactivate; entry_MechanismDestroy]).

(** The primary entry point of the plugin.  [log_client] is what asl_open
    returns (0 for NULL); [outPlugin] and [outPluginInterface] are the
    addresses handed in.  The second component of the result is what was
    stored through them, [None] when nothing was. *)
Definition AuthorizationPluginCreate (k : Kernel) (log_client : Z)
    (callbacks : option AuthorizationCallbacks)
    (outPlugin outPluginInterface : option Z)
  : outcome (OSStatus * option (PluginRecord * (Z * list plugin_entry)))
    * list host_event :=
  let tr := [ev_asl_open] in
  if log_client =? 0 then
    (Returns (errAuthorizationInternal, None),
     tr ++ [ev_syslog LOG_ERR "LoginScriptPlugin: asl_open() failed"])
  else
    let tr := tr ++ [mech (asl_log ASL_LEVEL_DEBUG
      "LoginScriptPlugin:AuthorizationPluginCreate: callbacks=%p")] in
    match callbacks with
    | None => (Aborts, tr)
    | Some cb =>
      if negb (kAuthorizationCallbacksVersion <=? version cb) then
        (Aborts, tr)
      else
        match outPlugin, outPluginInterface with
        | None, _ | _, None => (Aborts, tr)
        | Some _, Some _ =>
          (* Create the plugin. *)
          let tr := tr ++ [mech ev_malloc] in
          if negb (k_malloc k) then
            (Returns (errAuthorizationInternal, None),
             tr ++ [mech (asl_log ASL_LEVEL_ERR "Plugin allocation failed")])
          else
            (* Fill it in. *)
            let plugin :=
              {| plugin_fMagic := kPluginMagic;
                 fCallbacks := callbacks;
                 fLogClient := log_client |} in
            (Returns (errAuthorizationSuccess,
                      Some (plugin, gPluginInterface)),
             tr ++ [mech (asl_log ASL_LEVEL_DEBUG
               "LoginScriptPlugin:AuthorizationPluginCreate: *outPlugin=%p, *outPluginInterface=%p")])
        end
    end.

(** ** Notions used in the statements below *)

(** The path starts with a slash. *)
Definition absolute (path : string) : bool := is_slash (String.get 0 path).

(** The bound of the descriptor loop: sysconf(_SC_OPEN_MAX), or OPEN_MAX
    when that is negative. *)
Definition maxfd (k : Kernel) : Z :=
  if k_sysconf_OPEN_MAX k <? 0 then OPEN_MAX else k_sysconf_OPEN_MAX k.

Definition is_SetResult (e : event) : bool :=
  match e with ev_SetResult _ => true | _ => false end.

Definition is_credential_change (e : event) : bool :=
  match e with ev_setgid _ | ev_setuid _ => true | _ => false end.

Definition is_GetContextValue (e : event) : bool :=
  match e with ev_GetContextValue _ => true | _ => false end.

(** The nodes that have to be trusted for the script of a mechanism. *)
Definition install_chain (phase : scriptPhase) (context : userContext)
  : list string :=
  [scriptPath phase context; kLoginScriptDir;
   "/Library/Application Support"; "/Library"; "/"].

(** A relative path whose nodes would all pass. *)
Definition relative_fs : gmap string stat :=
  <["/" := root_dir]> (<["." := root_dir]> (<["s" := root_script]> ∅)).

(** ** VerifyScript, node by node *)

Section VerifyScript_facts.

Variable fs : gmap string stat.

Lemma VerifyScript_pass fuel path rootInfo info :
  fs !! "/" = Some rootInfo ->
  fs !! path = Some info ->
  node_check rootInfo info = true ->
  VerifyScript (S fuel) fs path =
    if String.eqb path "/" then Some (true, [])
    else match dirname path with
         | Some parent => VerifyScript fuel fs parent
         | None => Some (false, [asl_log ASL_LEVEL_WARNING "Can't stat %s"])
         end.
Proof.
  intros Hroot Hpath Hck. unfold node_check in Hck.
  repeat (apply andb_prop in Hck; destruct Hck as [Hck ?]).
  cbn [VerifyScript]. unfold lstat. rewrite Hroot, Hpath.
  repeat match goal with
         | H : negb ?b = true |- _ => apply negb_true_iff in H
         end.
  repeat match goal with
         | H : ?b = _ |- context [?b] => rewrite H
         end.
  cbn [negb andb]. reflexivity.
Qed.

Lemma VerifyScript_reject fuel path rootInfo info :
  fs !! "/" = Some rootInfo ->
  fs !! path = Some info ->
  node_check rootInfo info = false ->
  exists tr, VerifyScript (S fuel) fs path = Some (false, tr).
Proof.
  intros Hroot Hpath Hck. unfold node_check in Hck.
  cbn [VerifyScript]. unfold lstat. rewrite Hroot, Hpath.
  destruct (st_dev info =? st_dev rootInfo); cbn [negb]; [|eauto].
  destruct (S_ISLNK (st_mode info)); [eauto|].
  destruct (st_uid info =? 0); cbn [negb]; [|eauto].
  destruct (Z.land (st_mode info) S_IWOTH =? 0); cbn [negb]; [|eauto].
  destruct (negb (Z.land (st_mode info) S_IWGRP =? 0)
            && negb (st_gid info =? 0)); [eauto|].
  destruct (Z.land (st_mode info) S_IXUSR =? 0); [eauto|].
  discriminate Hck.
Qed.

Lemma VerifyScript_true_inv fuel path tr :
  VerifyScript (S fuel) fs path = Some (true, tr) ->
  exists rootInfo info,
    fs !! "/" = Some rootInfo /\ fs !! path = Some info
    /\ node_check rootInfo info = true
    /\ (path = "/" /\ tr = []
        \/ path <> "/" /\ exists parent,
             dirname path = Some parent
             /\ VerifyScript fuel fs parent = Some (true, tr)).
Proof.
  intros H.
  destruct (fs !! "/") as [rootInfo|] eqn:Hroot;
    [|cbn [VerifyScript] in H; unfold lstat in H; rewrite Hroot in H;
      discriminate].
  destruct (fs !! path) as [info|] eqn:Hpath;
    [|cbn [VerifyScript] in H; unfold lstat in H;
      rewrite Hroot, Hpath in H; discriminate].
  destruct (node_check rootInfo info) eqn:Hck.
  - exists rootInfo, info. repeat split; try assumption.
    rewrite (VerifyScript_pass _ _ _ _ Hroot Hpath Hck) in H.
    destruct (String.eqb_spec path "/") as [->|Hne].
    + left. split; [reflexivity|congruence].
    + right. split; [assumption|].
      destruct (dirname path) as [parent|]; [|discriminate].
      exists parent. split; [reflexivity|assumption].
  - destruct (VerifyScript_reject fuel _ _ _ Hroot Hpath Hck) as [tr' Htr'].
    congruence.
Qed.

End VerifyScript_facts.

(** An accepted path: no log line, the chain ends at "/", and every node
    of the chain passed every test. *)
Lemma VerifyScript_accepts_chain fuel fs path tr :
  VerifyScript fuel fs path = Some (true, tr) ->
  tr = [] /\ last (chain fuel path) = Some "/"
  /\ exists rootInfo, fs !! "/" = Some rootInfo
     /\ forall q, In q (chain fuel path) ->
          exists info, fs !! q = Some info /\ node_check rootInfo info = true.
Proof.
  revert path. induction fuel as [|fuel IH]; intros path H; [discriminate|].
  destruct (VerifyScript_true_inv _ _ _ _ H)
    as (rootInfo & info & Hroot & Hpath & Hck & Hcase).
  destruct Hcase as [[-> ->]|[Hne (parent & Hdir & Hrec)]].
  - split; [reflexivity|]. split; [reflexivity|].
    exists rootInfo. split; [assumption|].
    intros q [<-|[]]. eauto.
  - destruct (IH _ Hrec) as (Htr & Hlast & rootInfo' & Hroot' & Hall).
    assert (rootInfo' = rootInfo) as -> by congruence.
    apply String.eqb_neq in Hne.
    cbn [chain]. rewrite Hne, Hdir.
    split; [assumption|]. split.
    + destruct (chain fuel parent) as [|x l] eqn:Hch; [discriminate|].
      exact Hlast.
    + exists rootInfo. split; [assumption|].
      intros q [<-|Hin]; eauto.
Qed.

(** Replacing the lstat of one node of an accepted chain by one that fails
    a test turns the answer into false, with the same fuel. *)
Lemma VerifyScript_rejects_changed_node fuel fs path tr q info' :
  VerifyScript fuel fs path = Some (true, tr) ->
  In q (chain fuel path) ->
  (forall rootInfo', node_check rootInfo' info' = false) ->
  exists tr', VerifyScript fuel (<[q := info']> fs) path = Some (false, tr').
Proof.
  intros H Hin Hbad. revert path H Hin.
  induction fuel as [|fuel IH]; intros path H Hin; [discriminate|].
  destruct (VerifyScript_true_inv _ _ _ _ H)
    as (rootInfo & info & Hroot & Hpath & Hck & Hcase).
  assert (exists rootInfo', <[q := info']> fs !! "/" = Some rootInfo')
    as [rootInfo' Hroot'].
  { destruct (decide (q = "/")) as [->|Hq].
    - rewrite lookup_insert_eq. eauto.
    - rewrite lookup_insert_ne by assumption. eauto. }
  destruct (decide (q = path)) as [->|Hqp].
  - eapply VerifyScript_reject; [exact Hroot'|apply lookup_insert_eq|apply Hbad].
  - assert (<[q := info']> fs !! path = Some info) as Hpath'
      by (rewrite lookup_insert_ne; assumption).
    destruct (node_check rootInfo' info) eqn:Hck'.
    + rewrite (VerifyScript_pass _ _ _ _ _ Hroot' Hpath' Hck').
      destruct Hcase as [[-> ->]|[Hne (parent & Hdir & Hrec)]].
      * cbn in Hin. destruct Hin as [?|[]]. congruence.
      * cbn [chain] in Hin. apply String.eqb_neq in Hne.
        rewrite Hne, Hdir in Hin |- *.
        destruct Hin as [?|Hin]; [congruence|]. exact (IH _ Hrec Hin).
    + eapply VerifyScript_reject; eassumption.
Qed.

Lemma node_check_trusted rootInfo info :
  node_check rootInfo info = true -> trusted_node info /\ owner_executable info.
Proof.
  unfold node_check, trusted_node, owner_executable. intros H.
  repeat (apply andb_prop in H; destruct H as [H ?]).
  repeat match goal with
         | H : negb _ = true |- _ => apply negb_true_iff in H
         end.
  repeat match goal with
         | H : (_ =? _) = true |- _ => apply Z.eqb_eq in H
         | H : (_ =? _) = false |- _ => apply Z.eqb_neq in H
         end.
  repeat split; try assumption.
  intros Hw.
  match goal with
  | H : negb _ && negb _ = false |- _ =>
    apply andb_false_iff in H; destruct H as [H|H];
      apply negb_false_iff, Z.eqb_eq in H
  end; [contradiction|assumption].
Qed.

Lemma untrusted_node_check rootInfo info :
  ~ trusted_node info -> node_check rootInfo info = false.
Proof.
  intros Hn. destruct (node_check rootInfo info) eqn:H; [|reflexivity].
  destruct Hn. apply (node_check_trusted _ _ H).
Qed.

Lemma clear_S_IXUSR_not_executable info :
  Z.land (st_mode (clear_S_IXUSR info)) S_IXUSR = 0.
Proof.
  cbn [clear_S_IXUSR st_mode]. apply Z.bits_inj'. intros n Hn.
  rewrite Z.land_spec, Z.ldiff_spec, Z.bits_0.
  destruct (Z.testbit S_IXUSR n); [|apply andb_false_r].
  rewrite andb_false_r. reflexivity.
Qed.

Lemma unexecutable_node_check rootInfo info :
  ~ owner_executable info -> node_check rootInfo info = false.
Proof.
  intros Hn. destruct (node_check rootInfo info) eqn:H; [|reflexivity].
  destruct Hn. apply (node_check_trusted _ _ H).
Qed.

(** C1.  When [VerifyScript] returns true the chain of nodes from the path
    ends at the root "/", and every node of it is not a symbolic link, is
    owned by uid 0, is not world-writable and is group-writable only under
    gid 0.  Replacing the lstat of any node of the chain by one that breaks
    one of these conditions makes [VerifyScript] return false. *)
Theorem VerifyScript_chain_of_trust fuel fs path tr :
  VerifyScript fuel fs path = Some (true, tr) ->
  last (chain fuel path) = Some "/"
  /\ (forall q, In q (chain fuel path) ->
        exists info, lstat fs q = Some info /\ trusted_node info)
  /\ (forall q info', In q (chain fuel path) -> ~ trusted_node info' ->
        exists tr',
          VerifyScript fuel (<[q := info']> fs) path = Some (false, tr')).
Proof.
  intros H.
  destruct (VerifyScript_accepts_chain _ _ _ _ H)
    as (_ & Hlast & rootInfo & Hroot & Hall).
  split; [assumption|]. split.
  - intros q Hq. destruct (Hall q Hq) as (info & Hinfo & Hck).
    exists info. split; [exact Hinfo|]. apply (node_check_trusted _ _ Hck).
  - intros q info' Hq Hbad.
    apply (VerifyScript_rejects_changed_node _ _ _ _ _ _ H Hq).
    intros rootInfo'. apply untrusted_node_check. assumption.
Qed.

Lemma VerifyScript_chain_of_trust_witness :
  VerifyScript 3 small_fs "/a/s" = Some (true, [])
  /\ chain 3 "/a/s" = ["/a/s"; "/a"; "/"]
  /\ exists tr',
       VerifyScript 3 (<["/a" := world_writable_script]> small_fs) "/a/s"
       = Some (false, tr').
Proof.
  split; [vm_compute; reflexivity|]. split; [vm_compute; reflexivity|].
  refine (proj2 (proj2 (VerifyScript_chain_of_trust 3 small_fs "/a/s" [] _))
            "/a" world_writable_script _ _).
  - vm_compute; reflexivity.
  - vm_compute. auto.
  - unfold trusted_node. vm_compute. intros (_ & _ & Hw & _). discriminate Hw.
Defined.

(** C2, as the code has it: the owner-execute test is made on every node
    of the chain, leaf, ancestor directories and root alike.  When
    [VerifyScript] returns true every node of the chain has the bit, and
    clearing the bit alone on any one of them makes it return false. *)
Theorem VerifyScript_S_IXUSR_on_every_node fuel fs path tr :
  VerifyScript fuel fs path = Some (true, tr) ->
  forall q, In q (chain fuel path) ->
    exists info,
      lstat fs q = Some info /\ owner_executable info
      /\ exists tr',
           VerifyScript fuel (<[q := clear_S_IXUSR info]> fs) path
           = Some (false, tr').
Proof.
  intros H q Hq.
  destruct (VerifyScript_accepts_chain _ _ _ _ H)
    as (_ & _ & rootInfo & Hroot & Hall).
  destruct (Hall q Hq) as (info & Hinfo & Hck).
  exists info. split; [exact Hinfo|]. split.
  - apply (node_check_trusted _ _ Hck).
  - apply (VerifyScript_rejects_changed_node _ _ _ _ _ _ H Hq).
    intros rootInfo'. apply unexecutable_node_check.
    unfold owner_executable. rewrite clear_S_IXUSR_not_executable. auto.
Qed.

Lemma VerifyScript_S_IXUSR_on_every_node_witness :
  VerifyScript 3 small_fs "/a/s" = Some (true, [])
  /\ exists info,
       lstat small_fs "/" = Some info /\ owner_executable info
       /\ exists tr',
            VerifyScript 3 (<["/" := clear_S_IXUSR info]> small_fs) "/a/s"
            = Some (false, tr').
Proof.
  split; [vm_compute; reflexivity|].
  apply (VerifyScript_S_IXUSR_on_every_node 3 small_fs "/a/s" []).
  - vm_compute; reflexivity.
  - vm_compute. auto.
Defined.

(** C2, as the claim has it, fails: "/a" is an ancestor directory of the
    accepted "/a/s"; without its owner-execute bit, and nothing else
    changed, it is still a trusted node, and [VerifyScript] returns
    false. *)
Lemma VerifyScript_ancestor_without_S_IXUSR :
  VerifyScript 3 small_fs "/a/s" = Some (true, [])
  /\ chain 3 "/a/s" = ["/a/s"; "/a"; "/"]
  /\ small_fs !! "/a" = Some root_dir
  /\ clear_S_IXUSR root_dir = noexec_dir
  /\ trusted_node noexec_dir
  /\ VerifyScript 3 (<["/a" := noexec_dir]> small_fs) "/a/s"
     = Some (false, [asl_log ASL_LEVEL_WARNING "%s isn't executable"]).
Proof.
  repeat split; vm_compute; reflexivity.
Qed.

(** ** Wait statuses *)

Lemma wait_status_exited code :
  WIFSIGNALED (wait_status (Exited code)) = false
  /\ WEXITSTATUS (wait_status (Exited code)) = Z.land code 255.
Proof.
  unfold WIFSIGNALED, WEXITSTATUS, _WSTATUS, wait_status.
  assert (Z.land (Z.shiftl (Z.land code 255) 8) 127 = 0) as ->.
  { apply Z.bits_inj'. intros n Hn. rewrite Z.land_spec, Z.bits_0.
    destruct (Z.ltb_spec n 8).
    - rewrite Z.shiftl_spec_low by lia. reflexivity.
    - change 127 with (Z.ones 7). rewrite Z.ones_spec_high by lia.
      apply andb_false_r. }
  split; [reflexivity|].
  rewrite Z.shiftr_shiftl_l by lia. change (8 - 8) with 0.
  rewrite Z.shiftl_0_r, <- Z.land_assoc, Z.land_diag. reflexivity.
Qed.

Lemma wait_status_signaled sig core :
  0 < sig < 127 -> WIFSIGNALED (wait_status (Signaled sig core)) = true.
Proof.
  intros Hsig. unfold WIFSIGNALED, _WSTATUS, _WSTOPPED, wait_status.
  assert (Z.land (Z.lor sig (if core then 128 else 0)) 127 = sig) as ->.
  { rewrite Z.land_lor_distr_l.
    assert (Z.land (if core then 128 else 0) 127 = 0) as ->
      by (destruct core; reflexivity).
    rewrite Z.lor_0_r. change 127 with (Z.ones 7).
    rewrite Z.land_ones by lia. apply Z.mod_small. change (2 ^ 7) with 128.
    lia. }
  apply andb_true_intro. split; apply negb_true_iff, Z.eqb_neq; lia.
Qed.

Lemma land_255_small code : 0 <= code <= 255 -> Z.land code 255 = code.
Proof.
  intros H. change 255 with (Z.ones 8). rewrite Z.land_ones by lia.
  apply Z.mod_small. change (2 ^ 8) with 256. lia.
Qed.

(** What the parent decides from the status waitpid stored. *)
Lemma reaped_status_decision t :
  valid_termination t ->
  (negb (WIFSIGNALED (wait_status t))
   && (WEXITSTATUS (wait_status t) =? EX_NOPERM) = true
   <-> t = Exited EX_NOPERM).
Proof.
  intros Hv. destruct t as [code|sig core].
  - destruct (wait_status_exited code) as [-> ->]. cbn in Hv.
    rewrite (land_255_small _ Hv). cbn [negb andb]. rewrite Z.eqb_eq.
    split; [intros ->; reflexivity|congruence].
  - rewrite (wait_status_signaled _ core Hv). cbn [negb andb].
    split; discriminate.
Qed.

(** ** ExecuteScript, branch by branch *)

Lemma VerifyScript_only_logs fuel fs path b tr :
  VerifyScript fuel fs path = Some (b, tr) -> forallb is_log tr = true.
Proof.
  revert path. induction fuel as [|fuel IH]; intros path H; [discriminate|].
  cbn [VerifyScript] in H.
  repeat match type of H with
         | context [match ?x with _ => _ end] =>
           destruct x eqn:?; try (injection H as <- <-; reflexivity)
         end.
  eapply IH; eassumption.
Qed.

Lemma VerifyScript_true_no_log fuel fs path tr :
  VerifyScript fuel fs path = Some (true, tr) -> tr = [].
Proof. intros H. apply (VerifyScript_accepts_chain _ _ _ _ H). Qed.

Lemma mark_cloexec_with_fork k r n fd :
  mark_cloexec (with_fork k r) n fd = mark_cloexec k n fd.
Proof.
  revert fd. induction n as [|n IH]; intros fd; [reflexivity|].
  cbn [mark_cloexec with_fork k_fcntl_cloexec]. rewrite !IH. reflexivity.
Qed.

Lemma mark_stray_descriptors_with_fork k r :
  mark_stray_descriptors (with_fork k r) = mark_stray_descriptors k.
Proof. unfold mark_stray_descriptors. apply mark_cloexec_with_fork. Qed.

(** The status the parent goes on with after waitpid: the one stored, or,
    when waitpid failed, what childStatus held before. *)
Lemma ExecuteScript_parent fuel k path uid gid tr :
  VerifyScript fuel (k_fs k) path = Some (true, tr) ->
  k_fork k <> -1 -> k_fork k <> 0 ->
  exists tr',
    ExecuteScript fuel k path uid gid =
    Some (Returns
            (let childStatus :=
               match k_waitpid k (k_fork k) with
               | WaitReaped status => status
               | WaitFailed _ => k_childStatus k
               end in
             if negb (WIFSIGNALED childStatus)
                && (WEXITSTATUS childStatus =? EX_NOPERM)
             then kAuthorizationResultDeny else kAuthorizationResultAllow),
          tr').
Proof.
  intros Hv H1 H0. unfold ExecuteScript. rewrite Hv.
  apply Z.eqb_neq in H1, H0. rewrite H1, H0.
  destruct (k_waitpid k (k_fork k)) as [status|errno]; cbn zeta;
    match goal with
    | |- context [WIFSIGNALED ?s] =>
      destruct (WIFSIGNALED s); cbn [negb andb]; [eauto|];
      destruct (WEXITSTATUS s =? EX_NOPERM); eauto
    end.
Qed.

Lemma ExecuteScript_child fuel k path uid gid tr :
  VerifyScript fuel (k_fs k) path = Some (true, tr) ->
  k_fork k = 0 ->
  let argv := [path; snprintf 21 (pretty (int_of_uid_t uid))] in
  exists tr',
    ExecuteScript fuel k path uid gid =
    Some (if fst (mark_stray_descriptors k) then
            match k_execl k path argv with
            | None => Execs path argv
            | Some _ => Exits EX_OSERR
            end
          else Exits EX_NOPERM, tr')
    /\ (fst (mark_stray_descriptors k) = true -> In (ev_execl path argv) tr')
    /\ (fst (mark_stray_descriptors k) = false ->
        forall p a, ~ In (ev_execl p a) tr').
Proof.
  intros Hv H0 argv. unfold ExecuteScript. rewrite Hv, H0.
  rewrite (VerifyScript_true_no_log _ _ _ _ Hv).
  change (0 =? -1) with false. change (0 =? 0) with true. cbn iota.
  destruct (mark_stray_descriptors k) as [[|] tr_fd] eqn:Hfd; cbn [fst].
  - fold argv. destruct (k_execl k path argv); eexists; (split; [reflexivity|]);
      (split; [intros _|discriminate]);
      rewrite !in_app_iff; cbn [In]; tauto.
  - eexists. split; [reflexivity|]. split; [discriminate|].
    intros _ p a. rewrite !in_app_iff. cbn [In].
    assert (~ In (ev_execl p a) tr_fd) as Hno.
    { clear -Hfd. unfold mark_stray_descriptors in Hfd.
      revert Hfd.
      generalize (Z.to_nat
        ((if k_sysconf_OPEN_MAX k <? 0 then OPEN_MAX
          else k_sysconf_OPEN_MAX k) - (STDERR_FILENO + 1))).
      generalize (STDERR_FILENO + 1). intros fd n. revert fd tr_fd.
      induction n as [|n IH]; intros fd tr_fd H; cbn [mark_cloexec] in H.
      - discriminate.
      - destruct (k_fcntl_cloexec k fd) as [errno|].
        + destruct (negb (errno =? EBADF)).
          * injection H as <-. cbn [In]. intros [?|[?|[]]]; discriminate.
          * destruct (mark_cloexec k n (fd + 1)) as [ok tr0] eqn:Hrec.
            injection H as -> <-. cbn [In].
            intros [?|?]; [discriminate|]. eapply IH; eauto.
        + destruct (mark_cloexec k n (fd + 1)) as [ok tr0] eqn:Hrec.
          injection H as -> <-. cbn [In].
          intros [?|?]; [discriminate|]. eapply IH; eauto. }
    destruct (negb (uid =? 0) || negb (gid =? 0)); cbn [In];
      intuition discriminate.
Qed.

(** C6.  When [VerifyScript] returns false, [ExecuteScript] returns Allow
    at once: all it does is write log lines, so no process is forked and
    nothing is executed or waited for. *)
Theorem ExecuteScript_unverified_path fuel k path uid gid tr :
  VerifyScript fuel (k_fs k) path = Some (false, tr) ->
  exists tr',
    ExecuteScript fuel k path uid gid
    = Some (Returns kAuthorizationResultAllow, tr')
    /\ forallb is_log tr' = true
    /\ ~ In ev_fork tr'.
Proof.
  intros Hv. unfold ExecuteScript. rewrite Hv. eexists.
  split; [reflexivity|].
  assert (forallb is_log (tr ++ [asl_log ASL_LEVEL_WARNING "Not executing %s"])
          = true) as Hlog.
  { rewrite forallb_app, (VerifyScript_only_logs _ _ _ _ _ Hv). reflexivity. }
  split; [exact Hlog|].
  intros Hin. rewrite forallb_forall in Hlog. apply Hlog in Hin.
  discriminate Hin.
Qed.

Lemma ExecuteScript_unverified_path_witness :
  exists tr',
    ExecuteScript 5 (example_kernel child_pid fcntl_ok None (WaitReaped 0) 0)
      (scriptPath kRunBeforeHomedirMount kRunAsUser) 501 20
    = Some (Returns kAuthorizationResultAllow, tr')
    /\ forallb is_log tr' = true
    /\ ~ In ev_fork tr'.
Proof.
  apply (ExecuteScript_unverified_path 5 _ _ 501 20
           [asl_log ASL_LEVEL_WARNING "Can't stat %s"]).
  vm_compute. reflexivity.
Defined.

(** For a verified script whose forked child was collected by waitpid,
    [ExecuteScript] returns Deny exactly when the child exited normally
    with status 77; any other exit status and any death by signal give
    Allow. *)
Theorem ExecuteScript_exit_status_contract fuel k path uid gid tr t :
  VerifyScript fuel (k_fs k) path = Some (true, tr) ->
  k_fork k <> -1 -> k_fork k <> 0 ->
  k_waitpid k (k_fork k) = WaitReaped (wait_status t) ->
  valid_termination t ->
  exists r tr',
    ExecuteScript fuel k path uid gid = Some (Returns r, tr')
    /\ (r = kAuthorizationResultDeny <-> t = Exited EX_NOPERM)
    /\ (t <> Exited EX_NOPERM -> r = kAuthorizationResultAllow).
Proof.
  intros Hv H1 H0 Hw Ht.
  destruct (ExecuteScript_parent fuel k path uid gid tr Hv H1 H0) as [tr' E].
  rewrite Hw in E. cbn zeta in E.
  pose proof (reaped_status_decision t Ht) as Hd.
  destruct (negb (WIFSIGNALED (wait_status t))
            && (WEXITSTATUS (wait_status t) =? EX_NOPERM)).
  - exists kAuthorizationResultDeny, tr'. split; [exact E|].
    split; [tauto|]. intros Hne. destruct Hne. apply Hd. reflexivity.
  - exists kAuthorizationResultAllow, tr'. split; [exact E|].
    split; [|reflexivity]. split; [discriminate|].
    intros Ht'. apply Hd in Ht'. discriminate.
Qed.

Lemma ExecuteScript_exit_status_contract_witness :
  exists r tr',
    ExecuteScript 5
      (example_kernel child_pid fcntl_ok None
         (WaitReaped (wait_status (Exited 71))) 0)
      (scriptPath kRunAfterHomedirMount kRunAsUser) 501 20
    = Some (Returns r, tr')
    /\ (r = kAuthorizationResultDeny <-> Exited 71 = Exited EX_NOPERM)
    /\ (Exited 71 <> Exited EX_NOPERM -> r = kAuthorizationResultAllow).
Proof.
  apply (ExecuteScript_exit_status_contract 5 _ _ 501 20 []).
  - vm_compute. reflexivity.
  - vm_compute. discriminate.
  - vm_compute. discriminate.
  - reflexivity.
  - cbn. lia.
Defined.

(** C7, as the claim has it, fails: the child could not mark descriptor 4
    close-on-exec, never reached execl, and left with exit(EX_NOPERM); the
    parent collected that status and returned Deny. *)
Lemma ExecuteScript_descriptor_failure_denies :
  ExecuteScript 5 (with_fork denying_kernel 0)
    (scriptPath kRunAfterHomedirMount kRunAsUser) 501 20
  = Some (Exits EX_NOPERM,
          [asl_log ASL_LEVEL_NOTICE "Executing %s as uid %d"; ev_fork;
           ev_setgid 20; ev_setuid 501;
           ev_fcntl_cloexec 3; ev_fcntl_cloexec 4;
           asl_log ASL_LEVEL_ERR
             "Marking file descriptor %ld for closing failed with errno %d"])
  /\ child_termination 5 denying_kernel
       (scriptPath kRunAfterHomedirMount kRunAsUser) 501 20 (Exited 0)
     = Some (Exited EX_NOPERM)
  /\ k_waitpid denying_kernel child_pid
     = WaitReaped (wait_status (Exited EX_NOPERM))
  /\ fst <$> ExecuteScript 5 denying_kernel
               (scriptPath kRunAfterHomedirMount kRunAsUser) 501 20
     = Some (Returns kAuthorizationResultDeny).
Proof. repeat split; vm_compute; reflexivity. Qed.

(** C7, as the code has it.  In the parent, when waitpid collects the
    child, [ExecuteScript] returns Deny only if the script was verified,
    fork succeeded and the child exited normally with status 77; the child
    does so either because marking a descriptor close-on-exec failed (its
    own exit(EX_NOPERM)) or because execl replaced the image and the
    script exited with 77.  So a failed verification, a failed fork and a
    failed execl never give Deny. *)
Theorem ExecuteScript_Deny_needs_status_77 fuel k path uid gid script tr :
  k_fork k <> 0 ->
  valid_termination script ->
  (forall t, child_termination fuel k path uid gid script = Some t ->
             k_waitpid k (k_fork k) = WaitReaped (wait_status t)) ->
  ExecuteScript fuel k path uid gid
  = Some (Returns kAuthorizationResultDeny, tr) ->
  VerifyScript fuel (k_fs k) path = Some (true, [])
  /\ k_fork k <> -1
  /\ child_termination fuel k path uid gid script = Some (Exited EX_NOPERM)
  /\ (fst (mark_stray_descriptors k) = false
      \/ fst (mark_stray_descriptors k) = true
         /\ k_execl k path [path; snprintf 21 (pretty (int_of_uid_t uid))]
            = None
         /\ script = Exited EX_NOPERM).
Proof.
  intros H0 Hscript Hwait E.
  destruct (VerifyScript fuel (k_fs k) path) as [[[|] trv]|] eqn:Hv;
    [|unfold ExecuteScript in E; rewrite Hv in E; discriminate..].
  pose proof (VerifyScript_true_no_log _ _ _ _ Hv) as ->.
  split; [reflexivity|].
  assert (k_fork k <> -1) as H1.
  { intros Hf. unfold ExecuteScript in E. rewrite Hv, Hf in E.
    change (-1 =? -1) with true in E. discriminate. }
  split; [exact H1|].
  (* the child *)
  destruct (ExecuteScript_child fuel (with_fork k 0) path uid gid [] Hv
              eq_refl) as (trc & Ec & _).
  rewrite mark_stray_descriptors_with_fork in Ec.
  cbn [with_fork k_execl] in Ec.
  set (argv := [path; snprintf 21 (pretty (int_of_uid_t uid))]) in *.
  assert (exists t, child_termination fuel k path uid gid script = Some t
                    /\ valid_termination t
                    /\ (t = Exited EX_NOPERM ->
                        fst (mark_stray_descriptors k) = false
                        \/ fst (mark_stray_descriptors k) = true
                           /\ k_execl k path argv = None
                           /\ script = Exited EX_NOPERM))
    as (t & Ht & Hvalid & Hcause).
  { unfold child_termination. rewrite Ec.
    destruct (fst (mark_stray_descriptors k)).
    - destruct (k_execl k path argv).
      + exists (Exited EX_OSERR). split; [reflexivity|].
        split; [cbn; unfold EX_OSERR; lia|discriminate].
      + exists script. split; [reflexivity|]. split; [assumption|]. auto.
    - exists (Exited EX_NOPERM). split; [reflexivity|].
      split; [cbn; unfold EX_NOPERM; lia|auto]. }
  (* the parent *)
  destruct (ExecuteScript_parent fuel k path uid gid [] Hv H1 H0) as [trp Ep].
  rewrite (Hwait t Ht) in Ep. cbn zeta in Ep.
  pose proof (reaped_status_decision t Hvalid) as Hd.
  destruct (negb (WIFSIGNALED (wait_status t))
            && (WEXITSTATUS (wait_status t) =? EX_NOPERM));
    [|rewrite Ep in E; discriminate].
  assert (t = Exited EX_NOPERM) as -> by (apply Hd; reflexivity).
  split; [exact Ht|]. apply Hcause. reflexivity.
Qed.

Lemma ExecuteScript_Deny_needs_status_77_witness :
  VerifyScript 5 (k_fs script_denies_kernel)
    (scriptPath kRunAfterHomedirMount kRunAsUser) = Some (true, [])
  /\ k_fork script_denies_kernel <> -1
  /\ child_termination 5 script_denies_kernel
       (scriptPath kRunAfterHomedirMount kRunAsUser) 501 20
       (Exited EX_NOPERM)
     = Some (Exited EX_NOPERM)
  /\ (fst (mark_stray_descriptors script_denies_kernel) = false
      \/ fst (mark_stray_descriptors script_denies_kernel) = true
         /\ k_execl script_denies_kernel
              (scriptPath kRunAfterHomedirMount kRunAsUser)
              [scriptPath kRunAfterHomedirMount kRunAsUser;
               snprintf 21 (pretty (int_of_uid_t 501))]
            = None
         /\ Exited EX_NOPERM = Exited EX_NOPERM).
Proof.
  refine (ExecuteScript_Deny_needs_status_77 5 script_denies_kernel
            (scriptPath kRunAfterHomedirMount kRunAsUser) 501 20
            (Exited EX_NOPERM) _ _ _ _ _).
  - vm_compute. discriminate.
  - vm_compute. split; discriminate.
  - intros t Ht. vm_compute in Ht. injection Ht as <-. reflexivity.
  - vm_compute. reflexivity.
Defined.

(** C8 fails on the code.  waitpid returns -1 (EINTR) and stores nothing;
    the code goes on to test childStatus, which has no initialiser.  When
    the stale value there reads as "exited with 77" (0x4D00),
    [ExecuteScript] returns Deny instead of the default Allow. *)
Theorem ExecuteScript_wait_failure_stale_status :
  fst <$> ExecuteScript 5
            (example_kernel child_pid fcntl_ok None (WaitFailed EINTR) 19712)
            (scriptPath kRunAfterHomedirMount kRunAsUser) 501 20
  = Some (Returns kAuthorizationResultDeny).
Proof. vm_compute. reflexivity. Qed.

(** C3 fails on the code.  The script is verified, execl replaces the
    image and the script exits normally with status 0, not 77; waitpid in
    the parent fails (ECHILD) and stores nothing, and the code reads
    childStatus, which has no initialiser: with the stale value 0x4D00
    there [ExecuteScript] returns Deny for a child that exited with 0. *)
Theorem ExecuteScript_denies_after_exit_0 :
  VerifyScript 5
    (k_fs (example_kernel child_pid fcntl_ok None (WaitFailed ECHILD) 19712))
    (scriptPath kRunAfterHomedirMount kRunAsUser) = Some (true, [])
  /\ child_termination 5
       (example_kernel child_pid fcntl_ok None (WaitFailed ECHILD) 19712)
       (scriptPath kRunAfterHomedirMount kRunAsUser) 501 20 (Exited 0)
     = Some (Exited 0)
  /\ Exited 0 <> Exited EX_NOPERM
  /\ fst <$> ExecuteScript 5
               (example_kernel child_pid fcntl_ok None (WaitFailed ECHILD)
                  19712)
               (scriptPath kRunAfterHomedirMount kRunAsUser) 501 20
     = Some (Returns kAuthorizationResultDeny).
Proof.
  repeat split; try (vm_compute; reflexivity). discriminate.
Qed.

(** ** The uid argument of the script *)

Lemma substring_whole (s : string) (n : nat) :
  (String.length s <= n)%nat -> String.substring 0 n s = s.
Proof.
  revert n. induction s as [|c s IH]; intros [|n] H; cbn in *;
    try reflexivity; try lia.
  rewrite IH by lia. reflexivity.
Qed.

Lemma pretty_N_go_length (d : nat) (x : N) (s : string) :
  (x < 10 ^ N.of_nat d)%N ->
  (String.length (pretty_N_go x s) <= d + String.length s)%nat.
Proof.
  revert x s. induction d as [|d IH]; intros x s Hx.
  - assert (x = 0%N) as -> by (cbn in Hx; lia).
    rewrite pretty_N_go_0. lia.
  - destruct (N.eq_dec x 0%N) as [->|Hne]; [rewrite pretty_N_go_0; lia|].
    rewrite pretty_N_go_step by lia.
    etransitivity; [apply IH|cbn [String.length]; lia].
    rewrite Nat2N.inj_succ, N.pow_succ_r' in Hx.
    apply N.Div0.div_lt_upper_bound. exact Hx.
Qed.

Lemma pretty_int_length (z : Z) :
  - 2147483648 <= z <= 2147483647 ->
  (String.length (pretty z) <= 11)%nat.
Proof.
  intros Hz. destruct z as [|p|p]; [cbn; lia| |].
  - change (pretty (Z.pos p)) with (pretty (N.pos p)).
    unfold pretty, pretty_N. destruct (decide (N.pos p = 0%N)); [cbn; lia|].
    pose proof (pretty_N_go_length 10 (N.pos p) "") as H.
    cbn [String.length] in H. etransitivity; [apply H; lia|lia].
  - change (pretty (Z.neg p)) with ("-" +:+ pretty (N.pos p)).
    unfold pretty, pretty_N. destruct (decide (N.pos p = 0%N)); [cbn; lia|].
    pose proof (pretty_N_go_length 10 (N.pos p) "") as H.
    cbn [String.length] in H. cbn [String.app String.length].
    apply le_n_S. etransitivity; [apply H; lia|lia].
Qed.

Lemma int_of_uid_t_range uid :
  - 2147483648 <= int_of_uid_t uid <= 2147483647.
Proof.
  unfold int_of_uid_t, to_uid_t, UINT32_MOD, INT32_MAX.
  pose proof (Z.mod_pos_bound uid 4294967296 eq_refl).
  destruct (Z.leb_spec (uid mod 4294967296) 2147483647); lia.
Qed.

(** The 21 bytes of uidStr hold every "%d" text of a 32-bit value. *)
Lemma uidStr_not_truncated uid :
  snprintf 21 (pretty (int_of_uid_t uid)) = pretty (int_of_uid_t uid).
Proof.
  unfold snprintf. apply substring_whole.
  pose proof (pretty_int_length _ (int_of_uid_t_range uid)).
  change (Z.to_nat (21 - 1)) with 20%nat. lia.
Qed.

Lemma int_of_uid_t_small uid :
  0 <= uid <= INT32_MAX -> int_of_uid_t uid = uid.
Proof.
  unfold int_of_uid_t, to_uid_t, UINT32_MOD, INT32_MAX. intros H.
  rewrite Z.mod_small by lia.
  destruct (Z.leb_spec uid 2147483647); lia.
Qed.

(** C9, as the claim has it, fails for a uid above INT_MAX: the child's
    execl gets the text of the uid read as a signed int, not the decimal
    form of the uid. *)
Lemma ExecuteScript_large_uid_argument :
  fst <$> ExecuteScript 5
            (example_kernel 0 fcntl_ok None (WaitReaped 0) 0)
            (scriptPath kRunAfterHomedirMount kRunAsUser) 3000000000 20
  = Some (Execs (scriptPath kRunAfterHomedirMount kRunAsUser)
            [scriptPath kRunAfterHomedirMount kRunAsUser; "-1294967296"])
  /\ pretty 3000000000 = "3000000000"
  /\ "-1294967296" <> pretty 3000000000.
Proof.
  split; [vm_compute; reflexivity|]. split; [vm_compute; reflexivity|].
  vm_compute. discriminate.
Qed.

(** C9, as the code has it.  In the child, once the descriptors are
    marked, execl is called on the script with two arguments: the script
    path as argument zero and the "%d" text of the uid, that is the
    decimal form of the uid read as a 32-bit signed int, which is the
    decimal form of the uid itself up to INT_MAX.  When execl succeeds the
    image is replaced with that argument vector; when it fails the child
    exits with status 71, which is not the deny status 77. *)
Theorem ExecuteScript_child_execl fuel k path uid gid tr :
  VerifyScript fuel (k_fs k) path = Some (true, tr) ->
  k_fork k = 0 ->
  fst (mark_stray_descriptors k) = true ->
  let argv := [path; pretty (int_of_uid_t uid)] in
  (exists tr',
     ExecuteScript fuel k path uid gid
     = Some (match k_execl k path argv with
             | None => Execs path argv
             | Some _ => Exits 71
             end, tr')
     /\ In (ev_execl path argv) tr')
  /\ (0 <= uid <= INT32_MAX -> argv = [path; pretty uid])
  /\ EX_OSERR = 71 /\ EX_OSERR <> EX_NOPERM.
Proof.
  intros Hv H0 Hfd argv. split; [|split; [|split]].
  - destruct (ExecuteScript_child fuel k path uid gid tr Hv H0)
      as (tr' & E & Hin & _).
    rewrite Hfd, uidStr_not_truncated in E.
    rewrite uidStr_not_truncated in Hin.
    exists tr'. split; [exact E|]. apply Hin. exact Hfd.
  - intros Hsmall. unfold argv. rewrite int_of_uid_t_small by assumption.
    reflexivity.
  - reflexivity.
  - discriminate.
Qed.

Lemma ExecuteScript_child_execl_witness :
  (exists tr',
     ExecuteScript 5 (example_kernel 0 fcntl_ok (Some EINVAL) (WaitReaped 0) 0)
       (scriptPath kRunAfterHomedirMount kRunAsUser) 501 20
     = Some (Exits 71, tr')
     /\ In (ev_execl (scriptPath kRunAfterHomedirMount kRunAsUser)
              [scriptPath kRunAfterHomedirMount kRunAsUser;
               pretty (int_of_uid_t 501)]) tr')
  /\ (0 <= 501 <= INT32_MAX ->
      [scriptPath kRunAfterHomedirMount kRunAsUser; pretty (int_of_uid_t 501)]
      = [scriptPath kRunAfterHomedirMount kRunAsUser; pretty 501])
  /\ EX_OSERR = 71 /\ EX_OSERR <> EX_NOPERM.
Proof.
  refine (ExecuteScript_child_execl 5
            (example_kernel 0 fcntl_ok (Some EINVAL) (WaitReaped 0) 0)
            (scriptPath kRunAfterHomedirMount kRunAsUser) 501 20 [] _ _ _).
  - vm_compute. reflexivity.
  - reflexivity.
  - vm_compute. reflexivity.
Defined.

(** ** Mechanism entry points *)

(** C4.  With the arguments the host contract promises (a valid plugin, a
    non-NULL engine and out pointer) and the allocation of the record
    succeeding, each of the four mechanism ids gives the success status
    and an instance with its (context, phase) pair; any other id gives
    errAuthorizationInternal and NULL for the instance, whatever the
    allocator does. *)
Theorem MechanismCreate_mode_mapping k plugin inEngine mechanismId out :
  PluginValid (Some plugin) = true ->
  inEngine <> 0 ->
  let created c p :=
    Returns (errAuthorizationSuccess,
             Some (Some {| fMagic := kMechanismMagic; fEngine := inEngine;
                           fPlugin := Some plugin;
                           fContext := c; fPhase := p |})) in
  let result :=
    fst (MechanismCreate k (Some plugin) inEngine (Some mechanismId)
           (Some out)) in
  (k_malloc k = true ->
     (mechanismId = "premount-root" ->
      result = created kRunAsRoot kRunBeforeHomedirMount)
     /\ (mechanismId = "premount-user" ->
         result = created kRunAsUser kRunBeforeHomedirMount)
     /\ (mechanismId = "postmount-root" ->
         result = created kRunAsRoot kRunAfterHomedirMount)
     /\ (mechanismId = "postmount-user" ->
         result = created kRunAsUser kRunAfterHomedirMount))
  /\ (mechanismId <> "premount-root" -> mechanismId <> "premount-user" ->
      mechanismId <> "postmount-root" -> mechanismId <> "postmount-user" ->
      result = Returns (errAuthorizationInternal, Some None)).
Proof.
  intros Hvalid Hengine created result. subst result created.
  apply Z.eqb_neq in Hengine.
  unfold MechanismCreate. rewrite Hvalid, Hengine. cbn [negb].
  split.
  - intros ->. repeat split; intros ->; reflexivity.
  - intros H1 H2 H3 H4.
    apply String.eqb_neq in H1, H2, H3, H4. rewrite H1, H2, H3, H4.
    reflexivity.
Qed.

Lemma MechanismCreate_mode_mapping_witness :
  fst (MechanismCreate (example_kernel child_pid fcntl_ok None (WaitReaped 0) 0)
         (Some (example_plugin empty_context)) example_engine
         (Some "postmount-user") (Some 1))
  = Returns (errAuthorizationSuccess,
             Some (Some (example_mechanism empty_context
                           kRunAsUser kRunAfterHomedirMount))).
Proof.
  refine (proj2 (proj2 (proj2 (proj1
           (MechanismCreate_mode_mapping
              (example_kernel child_pid fcntl_ok None (WaitReaped 0) 0)
              (example_plugin empty_context) example_engine
              "postmount-user" 1 _ _) _))) _).
  - vm_compute. reflexivity.
  - vm_compute. discriminate.
  - reflexivity.
  - reflexivity.
Defined.

Lemma unresolved_identity_trace_quiet err e :
  In e (unresolved_identity_trace err) ->
  is_spawn e = false /\ (forall pid, e <> ev_waitpid pid).
Proof.
  unfold unresolved_identity_trace.
  destruct (negb (err =? errAuthorizationSuccess)); cbn [app In];
    intros H; repeat (destruct H as [<-|H]; [split; [reflexivity|discriminate]|]);
    destruct H.
Qed.

(** With the user context and either identity equal to (uid_t)NOBODY,
    whether a lookup failed or the store held that value, the run stops
    short of [ExecuteScript]. *)
Lemma MechanismInvoke_unresolved fuel k m plugin cb :
  MechanismValid (Some m) = true ->
  fPlugin m = Some plugin -> fCallbacks plugin = Some cb ->
  fContext m = kRunAsUser ->
  (let '(err, value) := GetContextValue cb (fEngine m) "uid" in
   if negb (err =? errAuthorizationSuccess) then to_uid_t NOBODY
   else load_uid_t value) = to_uid_t NOBODY
  \/ (let '(err, value) := GetContextValue cb (fEngine m) "gid" in
      if negb (err =? errAuthorizationSuccess) then to_uid_t NOBODY
      else load_uid_t value) = to_uid_t NOBODY ->
  MechanismInvoke fuel k (Some m)
  = Some (Returns (AuthorizationResult_code kAuthorizationResultAllow),
          unresolved_identity_trace
            (SetResult cb (fEngine m) kAuthorizationResultAllow)).
Proof.
  intros Hvalid Hplugin Hcb Hctx Hid.
  unfold MechanismInvoke. rewrite Hplugin, Hvalid, Hcb, Hctx.
  cbn [negb userContext_eqb].
  match goal with
  | |- context [(?u =? to_uid_t NOBODY) || (?g =? to_uid_t NOBODY)] =>
    assert ((u =? to_uid_t NOBODY) || (g =? to_uid_t NOBODY) = true) as ->
  end.
  { apply orb_true_iff. destruct Hid as [Hid|Hid]; [left|right];
      apply Z.eqb_eq; exact Hid. }
  unfold unresolved_identity_trace.
  destruct (negb (SetResult cb (fEngine m) kAuthorizationResultAllow
                  =? errAuthorizationSuccess)); reflexivity.
Qed.

(** C5.  In the user context, when the lookup of "uid" or of "gid" fails,
    [MechanismInvoke] reports Allow to the host through SetResult and
    returns; its whole trace is the two lookups, log lines and that
    report, so no path is verified, no process is forked and no script is
    executed, whatever the fuel and the kernel. *)
Theorem MechanismInvoke_lookup_failure fuel k m plugin cb :
  MechanismValid (Some m) = true ->
  fPlugin m = Some plugin -> fCallbacks plugin = Some cb ->
  fContext m = kRunAsUser ->
  fst (GetContextValue cb (fEngine m) "uid") <> errAuthorizationSuccess
  \/ fst (GetContextValue cb (fEngine m) "gid") <> errAuthorizationSuccess ->
  exists tr,
    MechanismInvoke fuel k (Some m)
    = Some (Returns (AuthorizationResult_code kAuthorizationResultAllow), tr)
    /\ tr = unresolved_identity_trace
              (SetResult cb (fEngine m) kAuthorizationResultAllow)
    /\ In (ev_SetResult kAuthorizationResultAllow) tr
    /\ (forall e, In e tr ->
          is_spawn e = false /\ forall pid, e <> ev_waitpid pid).
Proof.
  intros Hvalid Hplugin Hcb Hctx Hfail.
  eexists. split; [|split; [reflexivity|split]].
  - apply (MechanismInvoke_unresolved fuel k m plugin cb); try assumption.
    destruct Hfail as [Hf|Hf]; [left|right];
      match goal with
      | |- context [GetContextValue ?c ?e ?key] =>
        destruct (GetContextValue c e key) as [err value]
      end;
      cbn [fst] in Hf; apply Z.eqb_neq in Hf; rewrite Hf; reflexivity.
  - unfold unresolved_identity_trace. rewrite !in_app_iff. left.
    cbn [In]. tauto.
  - apply unresolved_identity_trace_quiet.
Qed.

Lemma MechanismInvoke_lookup_failure_witness :
  exists tr,
    MechanismInvoke 0 script_denies_kernel
      (Some (example_mechanism empty_context kRunAsUser kRunAfterHomedirMount))
    = Some (Returns (AuthorizationResult_code kAuthorizationResultAllow), tr)
    /\ tr = unresolved_identity_trace
              (SetResult (example_callbacks empty_context) example_engine
                 kAuthorizationResultAllow)
    /\ In (ev_SetResult kAuthorizationResultAllow) tr
    /\ (forall e, In e tr ->
          is_spawn e = false /\ forall pid, e <> ev_waitpid pid).
Proof.
  refine (MechanismInvoke_lookup_failure 0 script_denies_kernel
            (example_mechanism empty_context kRunAsUser kRunAfterHomedirMount)
            (example_plugin empty_context) (example_callbacks empty_context)
            _ _ _ _ _).
  - vm_compute. reflexivity.
  - reflexivity.
  - reflexivity.
  - reflexivity.
  - left. vm_compute. discriminate.
Defined.

Lemma with_failing_lookup_unresolved fuel k m plugin cb :
  MechanismValid (Some m) = true ->
  fPlugin m = Some plugin -> fCallbacks plugin = Some cb ->
  fContext m = kRunAsUser ->
  MechanismInvoke fuel k (Some (with_failing_lookup m))
  = Some (Returns (AuthorizationResult_code kAuthorizationResultAllow),
          unresolved_identity_trace
            (SetResult cb (fEngine m) kAuthorizationResultAllow)).
Proof.
  intros Hvalid Hplugin Hcb Hctx.
  unfold with_failing_lookup. rewrite Hplugin, Hcb.
  match goal with
  | |- MechanismInvoke _ _ (Some {| fPlugin := Some ?p |}) = _ =>
    match p with
    | {| fCallbacks := Some ?c |} =>
      rewrite (MechanismInvoke_unresolved fuel k _ p c)
    end
  end; try reflexivity; try assumption.
  - unfold MechanismValid in *. cbn [fMagic fEngine fPlugin].
    rewrite Hplugin in Hvalid. exact Hvalid.
  - left. reflexivity.
Qed.

(** C10.  In the user context, when the context store answers with success
    and the uid or the gid it holds is 4294967294, which is (uid_t)-2, the
    run of [MechanismInvoke] is the run of a failed lookup: the same
    return value and the same trace as on a host whose lookups fail, with
    Allow reported and no script executed. *)
Theorem MechanismInvoke_nobody_is_failure fuel k m plugin cb :
  MechanismValid (Some m) = true ->
  fPlugin m = Some plugin -> fCallbacks plugin = Some cb ->
  fContext m = kRunAsUser ->
  (exists value,
     GetContextValue cb (fEngine m) "uid" = (errAuthorizationSuccess, value)
     /\ load_uid_t value = 4294967294)
  \/ (exists value,
        GetContextValue cb (fEngine m) "gid" = (errAuthorizationSuccess, value)
        /\ load_uid_t value = 4294967294) ->
  MechanismInvoke fuel k (Some m)
  = MechanismInvoke fuel k (Some (with_failing_lookup m))
  /\ exists tr,
       MechanismInvoke fuel k (Some m)
       = Some (Returns (AuthorizationResult_code kAuthorizationResultAllow),
               tr)
       /\ In (ev_SetResult kAuthorizationResultAllow) tr
       /\ (forall e, In e tr ->
             is_spawn e = false /\ forall pid, e <> ev_waitpid pid).
Proof.
  intros Hvalid Hplugin Hcb Hctx Hid.
  assert (MechanismInvoke fuel k (Some m)
          = Some (Returns (AuthorizationResult_code kAuthorizationResultAllow),
                  unresolved_identity_trace
                    (SetResult cb (fEngine m) kAuthorizationResultAllow)))
    as E.
  { apply (MechanismInvoke_unresolved fuel k m plugin cb); try assumption.
    destruct Hid as [(value & -> & Hv)|(value & -> & Hv)]; [left|right];
      cbn; exact Hv. }
  split.
  - rewrite E. symmetry.
    apply (with_failing_lookup_unresolved fuel k m plugin cb); assumption.
  - eexists. split; [exact E|]. split.
    + unfold unresolved_identity_trace. rewrite !in_app_iff. left.
      cbn [In]. tauto.
    + apply unresolved_identity_trace_quiet.
Qed.

Lemma MechanismInvoke_nobody_is_failure_witness :
  MechanismInvoke 5 script_denies_kernel
    (Some (example_mechanism (user_context 4294967294 20)
             kRunAsUser kRunAfterHomedirMount))
  = MechanismInvoke 5 script_denies_kernel
      (Some (with_failing_lookup
               (example_mechanism (user_context 4294967294 20)
                  kRunAsUser kRunAfterHomedirMount)))
  /\ exists tr,
       MechanismInvoke 5 script_denies_kernel
         (Some (example_mechanism (user_context 4294967294 20)
                  kRunAsUser kRunAfterHomedirMount))
       = Some (Returns (AuthorizationResult_code kAuthorizationResultAllow),
               tr)
       /\ In (ev_SetResult kAuthorizationResultAllow) tr
       /\ (forall e, In e tr ->
             is_spawn e = false /\ forall pid, e <> ev_waitpid pid).
Proof.
  refine (MechanismInvoke_nobody_is_failure 5 script_denies_kernel
            (example_mechanism (user_context 4294967294 20)
               kRunAsUser kRunAfterHomedirMount)
            (example_plugin (user_context 4294967294 20))
            (example_callbacks (user_context 4294967294 20)) _ _ _ _ _).
  - vm_compute. reflexivity.
  - reflexivity.
  - reflexivity.
  - reflexivity.
  - left. exists (value_of_uid_t 4294967294).
    split; vm_compute; reflexivity.
Defined.

(** ** Termination *)

(** The recursion ends as soon as the chain reaches "/" within the fuel,
    on every file system. *)
Lemma VerifyScript_returns fuel fs path :
  last (chain fuel path) = Some "/" ->
  exists b tr, VerifyScript fuel fs path = Some (b, tr).
Proof.
  revert path. induction fuel as [|fuel IH]; intros path H; [discriminate|].
  destruct (fs !! "/") as [rootInfo|] eqn:Hroot;
    [|cbn [VerifyScript]; unfold lstat; rewrite Hroot; eauto].
  destruct (fs !! path) as [info|] eqn:Hpath;
    [|cbn [VerifyScript]; unfold lstat; rewrite Hroot, Hpath; eauto].
  destruct (node_check rootInfo info) eqn:Hck.
  - rewrite (VerifyScript_pass _ _ _ _ _ Hroot Hpath Hck).
    cbn [chain] in H.
    destruct (String.eqb path "/") eqn:Hp; [eauto|].
    destruct (dirname path) as [parent|]; [|eauto].
    apply IH. destruct (chain fuel parent) as [|x l] eqn:Hch; [|exact H].
    cbn in H. injection H as ->. discriminate Hp.
  - destruct (VerifyScript_reject _ fuel _ _ _ Hroot Hpath Hck) as [tr E].
    eauto.
Qed.

(** The four script paths are four levels below "/": five calls of
    [VerifyScript] settle them. *)
Lemma scriptPath_chain phase context :
  last (chain 5 (scriptPath phase context)) = Some "/".
Proof. destruct phase, context; vm_compute; reflexivity. Qed.

Lemma ExecuteScript_returns fuel k path uid gid :
  last (chain fuel path) = Some "/" ->
  exists o tr, ExecuteScript fuel k path uid gid = Some (o, tr).
Proof.
  intros H. destruct (VerifyScript_returns fuel (k_fs k) path H) as (b & tr & E).
  unfold ExecuteScript. rewrite E. destruct b; [|eauto].
  destruct (k_fork k =? -1); [eauto|].
  destruct (k_fork k =? 0).
  - destruct (mark_stray_descriptors k) as [[|] tr_fd]; [|eauto].
    destruct (k_execl k path _); eauto.
  - destruct (k_waitpid k (k_fork k)); cbn zeta;
      match goal with
      | |- context [WIFSIGNALED ?s] =>
        destruct (WIFSIGNALED s); [eauto|];
        destruct (WEXITSTATUS s =? EX_NOPERM); eauto
      end.
Qed.

(** With the answers of the kernel given, fuel 5 is enough for
    [MechanismInvoke]: the script paths are four levels deep.  (A child
    that never ends, on which waitpid would block, has no [Kernel].) *)
Lemma MechanismInvoke_returns k inMechanism :
  exists o tr, MechanismInvoke 5 k inMechanism = Some (o, tr).
Proof.
  unfold MechanismInvoke.
  destruct inMechanism as [m|]; [|eauto].
  destruct (fPlugin m) as [plugin|]; [|eauto].
  destruct (negb (MechanismValid (Some m))); [eauto|].
  destruct (userContext_eqb (fContext m) kRunAsRoot);
    destruct (fCallbacks plugin) as [cb|]; cbv zeta; eauto;
    match goal with
    | |- context [if ?b then Some (Returns _, _)
                  else ExecuteScript _ _ ?p ?u ?g] =>
      destruct b; [eauto|];
      destruct (ExecuteScript_returns 5 k p u g (scriptPath_chain _ _))
        as (o & tr' & ->)
    end;
    destruct o; eauto.
Qed.

(** ** End-to-end runs *)

(** "premount-root", the script is installed with mode 0755 and exits
    with 0: the child executes it with the argument "0", the parent
    reports Allow. *)
Example premount_root_allows :
  fst <$> ExecuteScript 5 (example_kernel 0 fcntl_ok None (WaitReaped 0) 0)
            (scriptPath kRunBeforeHomedirMount kRunAsRoot) 0 0
  = Some (Execs (scriptPath kRunBeforeHomedirMount kRunAsRoot)
            [scriptPath kRunBeforeHomedirMount kRunAsRoot; "0"])
  /\ MechanismInvoke 5
       (example_kernel child_pid fcntl_ok None
          (WaitReaped (wait_status (Exited 0))) 0)
       (Some (example_mechanism empty_context
                kRunAsRoot kRunBeforeHomedirMount))
     = Some (Returns 0,
             [asl_log ASL_LEVEL_DEBUG
                "LoginScriptPlugin:MechanismInvoke: inMechanism=%p";
              asl_log ASL_LEVEL_NOTICE "Executing %s as uid %d";
              ev_fork;
              asl_log ASL_LEVEL_DEBUG "Waiting for child with pid %d";
              ev_waitpid child_pid;
              asl_log ASL_LEVEL_WARNING "%s exited with status %d";
              ev_SetResult kAuthorizationResultAllow;
              asl_log ASL_LEVEL_DEBUG
                "LoginScriptPlugin:MechanismInvoke: result=%d"]).
Proof. split; vm_compute; reflexivity. Qed.

(** "postmount-user" for uid 501, gid 20, and the script exits with 77:
    Deny is reported. *)
Example postmount_user_denies :
  exists tr,
    MechanismInvoke 5 script_denies_kernel
      (Some (example_mechanism (user_context 501 20)
               kRunAsUser kRunAfterHomedirMount))
    = Some (Returns 1, tr)
    /\ In (ev_SetResult kAuthorizationResultDeny) tr.
Proof.
  eexists. split; [vm_compute; reflexivity|]. cbn. tauto.
Qed.

(** "premount-user" with a world-writable script: a warning, no fork,
    Allow. *)
Example premount_user_world_writable :
  MechanismInvoke 5
    (mk_Kernel
       (<[scriptPath kRunBeforeHomedirMount kRunAsUser
          := world_writable_script]> installed_fs)
       true child_pid 8 fcntl_ok (fun _ _ => None)
       (fun _ => WaitReaped 0) 0)
    (Some (example_mechanism (user_context 501 20)
             kRunAsUser kRunBeforeHomedirMount))
  = Some (Returns 0,
          [asl_log ASL_LEVEL_DEBUG
             "LoginScriptPlugin:MechanismInvoke: inMechanism=%p";
           ev_GetContextValue "uid"; ev_GetContextValue "gid";
           asl_log ASL_LEVEL_WARNING "%s is world writable";
           asl_log ASL_LEVEL_WARNING "Not executing %s";
           ev_SetResult kAuthorizationResultAllow;
           asl_log ASL_LEVEL_DEBUG
             "LoginScriptPlugin:MechanismInvoke: result=%d"]).
Proof. vm_compute. reflexivity. Qed.

(** * Further properties of the code *)

(** ** VerifyScript: what is accepted, and when it returns *)

Lemma node_check_iff rootInfo info :
  node_check rootInfo info = true
  <-> st_dev info = st_dev rootInfo /\ trusted_node info
      /\ owner_executable info.
Proof.
  split.
  - intros H. split; [|apply (node_check_trusted _ _ H)].
    unfold node_check in H.
    repeat (apply andb_prop in H; destruct H as [H _]).
    apply Z.eqb_eq. exact H.
  - intros (Hdev & (Hlnk & Huid & Hoth & Hgrp) & Hx).
    unfold node_check, owner_executable in *.
    rewrite Hdev, Z.eqb_refl, Hlnk, Huid, Hoth. cbn.
    apply Z.eqb_neq in Hx. rewrite Hx.
    destruct (Z.eqb_spec (Z.land (st_mode info) S_IWGRP) 0) as [E|E];
      [reflexivity|].
    rewrite (Hgrp E). reflexivity.
Qed.

(** [VerifyScript] returns true exactly for the chains that reach "/" and
    on which every node can be inspected, lies on the device of "/", is
    not a symbolic link, is owned by uid 0, is not world-writable, is
    group-writable only under gid 0 and is executable by its owner. *)
Theorem VerifyScript_accepts_iff fuel fs path :
  VerifyScript fuel fs path = Some (true, [])
  <-> last (chain fuel path) = Some "/"
      /\ exists rootInfo,
           lstat fs "/" = Some rootInfo
           /\ forall q, In q (chain fuel path) ->
                exists info,
                  lstat fs q = Some info
                  /\ st_dev info = st_dev rootInfo
                  /\ trusted_node info /\ owner_executable info.
Proof.
  split.
  - intros H.
    destruct (VerifyScript_accepts_chain _ _ _ _ H)
      as (_ & Hlast & rootInfo & Hroot & Hall).
    split; [assumption|]. exists rootInfo. split; [assumption|].
    intros q Hq. destruct (Hall q Hq) as (info & Hinfo & Hck).
    exists info. split; [exact Hinfo|]. apply node_check_iff. exact Hck.
  - intros (Hlast & rootInfo & Hroot & Hall). unfold lstat in *.
    revert path Hlast Hall.
    induction fuel as [|fuel IH]; intros path Hlast Hall; [discriminate|].
    destruct (Hall path) as (info & Hinfo & Hck); [cbn; auto|].
    apply node_check_iff in Hck.
    rewrite (VerifyScript_pass _ _ _ _ _ Hroot Hinfo Hck).
    cbn [chain] in Hlast, Hall.
    destruct (String.eqb path "/") eqn:Hp; [reflexivity|].
    destruct (dirname path) as [parent|].
    + apply IH.
      * destruct (chain fuel parent) as [|x l] eqn:Hch; [|exact Hlast].
        cbn in Hlast. injection Hlast as ->. discriminate Hp.
      * intros q Hq. apply Hall. right. exact Hq.
    + cbn in Hlast. injection Hlast as ->. discriminate Hp.
Qed.

(** Every rejection writes exactly one warning; an acceptance writes
    nothing. *)
Theorem VerifyScript_one_warning fuel fs path b tr :
  VerifyScript fuel fs path = Some (b, tr) ->
  if b then tr = []
  else exists format, tr = [asl_log ASL_LEVEL_WARNING format].
Proof.
  revert path. induction fuel as [|fuel IH]; intros path H; [discriminate|].
  cbn [VerifyScript] in H.
  repeat match type of H with
         | context [match ?x with _ => _ end] =>
           destruct x eqn:?; try (injection H as <- <-; eauto; fail)
         end.
  eapply IH; eassumption.
Qed.

Lemma VerifyScript_one_warning_witness :
  exists format,
    [asl_log ASL_LEVEL_WARNING "%s isn't executable"]
    = [asl_log ASL_LEVEL_WARNING format].
Proof.
  apply (VerifyScript_one_warning 3 (<["/a" := noexec_dir]> small_fs)
           "/a/s" false).
  vm_compute. reflexivity.
Defined.

(** ** dirname on absolute and relative paths *)

Lemma back_over_slashes_le path endp :
  (back_over_slashes path endp <= endp)%nat.
Proof.
  induction endp as [|e IH]; cbn [back_over_slashes]; [lia|].
  destruct (is_slash _); lia.
Qed.

Lemma back_to_slash_le path endp : (back_to_slash path endp <= endp)%nat.
Proof.
  induction endp as [|e IH]; cbn [back_to_slash]; [lia|].
  destruct (is_slash _); lia.
Qed.

Lemma substring_prefix_length (s : string) (n : nat) :
  (String.length (String.substring 0 n s) <= n)%nat.
Proof.
  revert n. induction s as [|c s IH]; intros [|n]; cbn; try lia.
  specialize (IH n). lia.
Qed.

Lemma substring_prefix_head (s : string) (n : nat) :
  String.get 0 (String.substring 0 (S n) s) = String.get 0 s.
Proof. destruct s; reflexivity. Qed.

(** What dirname answers, case by case. *)
Lemma dirname_cases path parent :
  dirname path = Some parent ->
  (path = "" /\ parent = ".")
  \/ (path <> "" /\ parent = if absolute path then "/" else ".")
  \/ (path <> ""
      /\ exists n, (S n < String.length path)%nat
                   /\ parent = String.substring 0 (S n) path).
Proof.
  unfold dirname. destruct (String.eqb_spec path "") as [->|Hne].
  - intros [= <-]. auto.
  - set (e1 := back_over_slashes path (String.length path - 1)).
    set (e2 := back_to_slash path e1).
    destruct (Nat.eqb_spec e2 0) as [E0|E0].
    + intros [= <-]. right. left. split; [assumption|reflexivity].
    + set (e3 := back_over_slashes path (e2 - 1)).
      destruct (MAXPATHLEN <? Z.of_nat e3 + 2); [discriminate|].
      intros [= <-]. right. right. split; [assumption|].
      exists e3. rewrite Nat.add_1_r. split; [|reflexivity].
      pose proof (back_over_slashes_le path (e2 - 1)).
      pose proof (back_to_slash_le path e1).
      pose proof (back_over_slashes_le path (String.length path - 1)).
      fold e1 in H1. fold e2 in H0. fold e3 in H. lia.
Qed.

Lemma absolute_length path :
  absolute path = true -> path <> "/" -> (2 <= String.length path)%nat.
Proof.
  destruct path as [|c [|d rest]]; cbn; intros H Hne; try discriminate.
  - apply Ascii.eqb_eq in H. subst c. congruence.
  - lia.
Qed.

Lemma dirname_absolute path parent :
  absolute path = true -> path <> "/" ->
  dirname path = Some parent ->
  absolute parent = true
  /\ (String.length parent < String.length path)%nat.
Proof.
  intros Habs Hne Hd. pose proof (absolute_length _ Habs Hne) as Hlen.
  destruct (dirname_cases _ _ Hd) as [[-> _]|[[_ ->]|(_ & n & Hn & ->)]].
  - discriminate Habs.
  - rewrite Habs. split; [reflexivity|cbn; lia].
  - split.
    + unfold absolute. rewrite substring_prefix_head. exact Habs.
    + pose proof (substring_prefix_length path (S n)). lia.
Qed.

Lemma dirname_relative path parent :
  absolute path = false ->
  dirname path = Some parent ->
  absolute parent = false.
Proof.
  intros Hrel Hd.
  destruct (dirname_cases _ _ Hd) as [[_ ->]|[[_ ->]|(_ & n & _ & ->)]].
  - reflexivity.
  - rewrite Hrel. reflexivity.
  - unfold absolute. rewrite substring_prefix_head. exact Hrel.
Qed.

(** On an absolute path [VerifyScript] returns, on every file system,
    after at most as many calls as the path has characters. *)
Theorem VerifyScript_absolute_returns fs path :
  absolute path = true ->
  exists b tr, VerifyScript (String.length path) fs path = Some (b, tr).
Proof.
  intros Habs.
  assert (forall n p, absolute p = true -> (String.length p <= n)%nat ->
                      exists b tr, VerifyScript n fs p = Some (b, tr))
    as Hgen; [|apply (Hgen _ _ Habs); lia].
  clear. induction n as [|n IH]; intros p Habs Hlen.
  - destruct p; [discriminate Habs|cbn in Hlen; lia].
  - destruct (fs !! "/") as [rootInfo|] eqn:Hroot;
      [|cbn [VerifyScript]; unfold lstat; rewrite Hroot; eauto].
    destruct (fs !! p) as [info|] eqn:Hp;
      [|cbn [VerifyScript]; unfold lstat; rewrite Hroot, Hp; eauto].
    destruct (node_check rootInfo info) eqn:Hck.
    + rewrite (VerifyScript_pass _ _ _ _ _ Hroot Hp Hck).
      destruct (String.eqb_spec p "/") as [->|Hne]; [eauto|].
      destruct (dirname p) as [parent|] eqn:Hd; [|eauto].
      destruct (dirname_absolute _ _ Habs Hne Hd) as [Hpa Hpl].
      apply IH; [exact Hpa|lia].
    + destruct (VerifyScript_reject _ n _ _ _ Hroot Hp Hck) as [tr E].
      eauto.
Qed.

Lemma VerifyScript_absolute_returns_witness :
  exists b tr,
    VerifyScript (String.length "/a/s") small_fs "/a/s" = Some (b, tr).
Proof.
  apply (VerifyScript_absolute_returns small_fs "/a/s"). reflexivity.
Defined.

(** A path that does not start with a slash is never accepted: on it
    [VerifyScript] returns false or goes on calling itself. *)
Theorem VerifyScript_relative_never_accepted fuel fs path tr :
  absolute path = false ->
  VerifyScript fuel fs path <> Some (true, tr).
Proof.
  revert path. induction fuel as [|fuel IH]; intros path Hrel H;
    [discriminate|].
  destruct (VerifyScript_true_inv _ _ _ _ H)
    as (_ & _ & _ & _ & _ & [[-> _]|[_ (parent & Hd & Hrec)]]).
  - discriminate Hrel.
  - apply (IH parent (dirname_relative _ _ Hrel Hd) Hrec).
Qed.

Lemma VerifyScript_relative_never_accepted_witness :
  VerifyScript 9 relative_fs "s" <> Some (true, [])
  /\ VerifyScript 9 relative_fs "s" = None.
Proof.
  split.
  - apply (VerifyScript_relative_never_accepted 9 relative_fs "s" []).
    reflexivity.
  - vm_compute. reflexivity.
Defined.

(** ** The descriptor loop *)

Lemma mark_cloexec_complete_iff k n fd0 :
  fst (mark_cloexec k n fd0) = true
  <-> forall fd, fd0 <= fd < fd0 + Z.of_nat n ->
        k_fcntl_cloexec k fd = None \/ k_fcntl_cloexec k fd = Some EBADF.
Proof.
  revert fd0. induction n as [|n IH]; intros fd0.
  - cbn. split; [intros _ fd Hfd; lia|reflexivity].
  - cbn [mark_cloexec]. specialize (IH (fd0 + 1)).
    destruct (mark_cloexec k n (fd0 + 1)) as [ok tr]. cbn [fst] in IH.
    destruct (k_fcntl_cloexec k fd0) as [errno|] eqn:Hfd0.
    + destruct (Z.eqb_spec errno EBADF) as [->|Hne]; cbn [negb fst].
      * rewrite IH. split; intros H fd Hfd.
        -- destruct (Z.eq_dec fd fd0) as [->|]; [auto|apply H; lia].
        -- apply H. lia.
      * split; [discriminate|]. intros H.
        destruct (H fd0 ltac:(lia)) as [E|E]; congruence.
    + cbn [fst]. rewrite IH. split; intros H fd Hfd.
      * destruct (Z.eq_dec fd fd0) as [->|]; [auto|apply H; lia].
      * apply H. lia.
Qed.

Lemma mark_cloexec_complete_trace k n fd0 :
  fst (mark_cloexec k n fd0) = true ->
  snd (mark_cloexec k n fd0) = ev_fcntl_cloexec <$> seqZ fd0 (Z.of_nat n).
Proof.
  revert fd0. induction n as [|n IH]; intros fd0; [reflexivity|].
  rewrite seqZ_cons by lia.
  replace (Z.pred (Z.of_nat (S n))) with (Z.of_nat n) by lia.
  cbn [mark_cloexec fmap list_fmap]. specialize (IH (fd0 + 1)).
  destruct (mark_cloexec k n (fd0 + 1)) as [ok tr]. cbn [fst snd] in IH.
  destruct (k_fcntl_cloexec k fd0) as [errno|].
  - destruct (negb (errno =? EBADF)); cbn [fst snd]; [discriminate|].
    intros ->. rewrite IH by reflexivity. reflexivity.
  - cbn [fst snd]. intros ->. rewrite IH by reflexivity. reflexivity.
Qed.

Lemma mark_cloexec_events k n fd0 e :
  In e (snd (mark_cloexec k n fd0)) ->
  is_log e = true
  \/ exists fd, e = ev_fcntl_cloexec fd /\ fd0 <= fd < fd0 + Z.of_nat n.
Proof.
  revert fd0. induction n as [|n IH]; intros fd0; [intros []|].
  cbn [mark_cloexec]. specialize (IH (fd0 + 1)).
  destruct (mark_cloexec k n (fd0 + 1)) as [ok tr]. cbn [snd] in IH.
  assert (In e (ev_fcntl_cloexec fd0 :: tr) ->
          is_log e = true
          \/ exists fd, e = ev_fcntl_cloexec fd
                        /\ fd0 <= fd < fd0 + Z.of_nat (S n)) as Hcons.
  { intros [<-|Hin]; [right; exists fd0; split; [reflexivity|lia]|].
    destruct (IH Hin) as [?|(fd & -> & Hfd)]; [auto|].
    right. exists fd. split; [reflexivity|lia]. }
  destruct (k_fcntl_cloexec k fd0) as [errno|]; [|exact Hcons].
  destruct (negb (errno =? EBADF)); [|exact Hcons].
  cbn [snd In]. intros [<-|[<-|[]]]; [|left; reflexivity].
  right. exists fd0. split; [reflexivity|lia].
Qed.

(** The loop goes through to execl exactly when every descriptor from 3
    up to the bound is either marked or reported as not open (EBADF); any
    other error on any of them ends the child. *)
Theorem mark_stray_descriptors_complete_iff k :
  fst (mark_stray_descriptors k) = true
  <-> forall fd, STDERR_FILENO < fd < maxfd k ->
        k_fcntl_cloexec k fd = None \/ k_fcntl_cloexec k fd = Some EBADF.
Proof.
  unfold mark_stray_descriptors. fold (maxfd k).
  rewrite mark_cloexec_complete_iff. unfold STDERR_FILENO.
  split; intros H fd Hfd; apply H; lia.
Qed.

(** A loop that goes through has called fcntl once on each descriptor
    3, 4, ..., bound - 1, in this order, and on nothing else. *)
Theorem mark_stray_descriptors_complete_trace k :
  fst (mark_stray_descriptors k) = true ->
  snd (mark_stray_descriptors k)
  = ev_fcntl_cloexec <$> seqZ (STDERR_FILENO + 1)
                              (maxfd k - (STDERR_FILENO + 1)).
Proof.
  unfold mark_stray_descriptors. fold (maxfd k). intros H.
  rewrite (mark_cloexec_complete_trace _ _ _ H).
  destruct (Z.le_gt_cases 0 (maxfd k - (STDERR_FILENO + 1))) as [Hle|Hgt].
  - rewrite Z2Nat.id by exact Hle. reflexivity.
  - rewrite Z2Nat.nonpos by lia. rewrite !seqZ_nil by lia. reflexivity.
Qed.

Lemma mark_stray_descriptors_complete_trace_witness :
  snd (mark_stray_descriptors script_denies_kernel)
  = ev_fcntl_cloexec <$> seqZ (STDERR_FILENO + 1)
                              (maxfd script_denies_kernel
                               - (STDERR_FILENO + 1)).
Proof.
  apply (mark_stray_descriptors_complete_trace script_denies_kernel).
  vm_compute. reflexivity.
Defined.

(** Whether it goes through or not, the loop never touches stdin, stdout
    or stderr, nor a descriptor at or above the bound. *)
Theorem mark_stray_descriptors_range k fd :
  In (ev_fcntl_cloexec fd) (snd (mark_stray_descriptors k)) ->
  STDERR_FILENO < fd < maxfd k.
Proof.
  unfold mark_stray_descriptors. fold (maxfd k). intros H.
  destruct (mark_cloexec_events _ _ _ _ H) as [Hlog|(fd' & [= <-] & Hfd)];
    [discriminate Hlog|].
  unfold STDERR_FILENO in *. lia.
Qed.

Lemma mark_stray_descriptors_range_witness :
  STDERR_FILENO < 4 < maxfd denying_kernel.
Proof.
  apply (mark_stray_descriptors_range denying_kernel 4).
  vm_compute. auto.
Defined.

(** ** ExecuteScript: what its trace can hold *)

Lemma mark_stray_descriptors_events k e :
  In e (snd (mark_stray_descriptors k)) ->
  is_log e = true \/ exists fd, e = ev_fcntl_cloexec fd.
Proof.
  unfold mark_stray_descriptors. intros H.
  destruct (mark_cloexec_events _ _ _ _ H) as [?|(fd & -> & _)]; eauto.
Qed.

(** Every way through [ExecuteScript], one goal each: the verification
    failed; fork failed; the child with the descriptors marked and execl
    failing or succeeding; the child that could not mark a descriptor; the
    parent after waitpid. *)
Ltac ExecuteScript_branches E :=
  unfold ExecuteScript in E;
  let Hv := fresh "Hv" in
  destruct (VerifyScript _ _ _) as [[[|] ?trv]|] eqn:Hv;
  [ pose proof (VerifyScript_true_no_log _ _ _ _ Hv); subst;
    destruct (k_fork _ =? -1) eqn:?;
    [ | destruct (k_fork _ =? 0) eqn:?;
        [ destruct (mark_stray_descriptors _) as [[|] ?tr_fd] eqn:?;
          [ destruct (k_execl _ _ _) eqn:? | ]
        | destruct (k_waitpid _ _) eqn:?; cbn zeta in E;
          (destruct (WIFSIGNALED _) eqn:?;
           [ | destruct (WEXITSTATUS _ =? EX_NOPERM) eqn:? ]) ] ]
  | | discriminate E ];
  injection E as <- <-.

(** Splits a membership in a concrete trace into its cases and closes
    those that name a different event. *)
Ltac trace_member H :=
  repeat first
    [ progress cbn [In] in H
    | rewrite in_app_iff in H
    | match type of H with
      | _ \/ _ => destruct H as [H|H]
      | False => destruct H
      | In _ (if ?c then _ else _) => destruct c
      end ];
  try discriminate H.

Lemma fd_trace_not k e tr_fd ok :
  mark_stray_descriptors k = (ok, tr_fd) ->
  In e tr_fd ->
  is_log e = true \/ exists fd, e = ev_fcntl_cloexec fd.
Proof.
  intros E H. apply (mark_stray_descriptors_events k).
  rewrite E. exact H.
Qed.

Lemma ExecuteScript_spawn_inv fuel k path uid gid o tr :
  ExecuteScript fuel k path uid gid = Some (o, tr) ->
  (In ev_fork tr -> VerifyScript fuel (k_fs k) path = Some (true, []))
  /\ (forall p argv, In (ev_execl p argv) tr ->
        In ev_fork tr /\ k_fork k = 0
        /\ p = path /\ argv = [path; pretty (int_of_uid_t uid)]).
Proof.
  intros E. ExecuteScript_branches E.
  all: split; [intros Hin|intros p argv Hin].
  all: try reflexivity.
  all: try (rewrite uidStr_not_truncated in Hin).
  all: trace_member Hin.
  all: try match goal with
           | Hfd : mark_stray_descriptors _ = _, H : In _ _ |- _ =>
             destruct (fd_trace_not _ _ _ _ Hfd H) as [?|[? ?]];
               discriminate
           end.
  all: try match goal with
           | H : ev_execl _ _ = ev_execl _ _ |- _ =>
             injection H as <- <-;
               match goal with
               | H0 : (k_fork _ =? 0) = true |- _ => apply Z.eqb_eq in H0
               end;
               split; [cbn [In app]; right; left; reflexivity|];
               repeat split; auto
           end.
  (* the rejected path: its trace is made of log lines *)
  all: pose proof (VerifyScript_only_logs _ _ _ _ _ Hv) as Hlog;
       rewrite forallb_forall in Hlog; apply Hlog in Hin; discriminate Hin.
Qed.

(** A process is forked only for a path [VerifyScript] accepted, and the
    only program ever executed is that very path, in the forked child,
    with the path and the uid text as its arguments. *)
Theorem ExecuteScript_spawn_needs_trust fuel k path uid gid o tr :
  ExecuteScript fuel k path uid gid = Some (o, tr) ->
  (In ev_fork tr -> VerifyScript fuel (k_fs k) path = Some (true, []))
  /\ (forall p argv, In (ev_execl p argv) tr ->
        In ev_fork tr /\ k_fork k = 0
        /\ p = path /\ argv = [path; pretty (int_of_uid_t uid)]).
Proof. apply ExecuteScript_spawn_inv. Qed.

Lemma ExecuteScript_spawn_needs_trust_witness :
  VerifyScript 5 installed_fs (scriptPath kRunAfterHomedirMount kRunAsUser)
  = Some (true, []).
Proof.
  eassert (ExecuteScript 5
             (example_kernel (-1) fcntl_ok None (WaitReaped 0) 0)
             (scriptPath kRunAfterHomedirMount kRunAsUser) 501 20
           = Some (_, _)) as E by (vm_compute; reflexivity).
  apply (proj1 (ExecuteScript_spawn_needs_trust _ _ _ _ _ _ _ E)).
  cbn [In]. right. left. reflexivity.
Defined.

(** Of the runs of [ExecuteScript] that come to an end: the forked child
    never returns to the caller of [ExecuteScript], it ends in
    exit(EX_NOPERM), exit(EX_OSERR) or the image of the script; and only
    the forked child ever ends in exit or in a replaced image, the
    calling process does neither. *)
Theorem ExecuteScript_child_never_returns fuel k path uid gid o tr :
  ExecuteScript fuel k path uid gid = Some (o, tr) ->
  (k_fork k = 0 -> In ev_fork tr ->
   o = Exits EX_NOPERM \/ o = Exits EX_OSERR
   \/ o = Execs path [path; pretty (int_of_uid_t uid)])
  /\ ((forall r, o <> Returns r) -> k_fork k = 0 /\ In ev_fork tr).
Proof.
  intros E. ExecuteScript_branches E.
  all: rewrite ?uidStr_not_truncated.
  all: split; [intros Hf Hin|intros Hn].
  all: try (exfalso; eapply Hn; reflexivity).
  all: eauto.
  all: try match goal with
           | H0 : (k_fork _ =? 0) = true |- _ =>
             apply Z.eqb_eq in H0;
               (split; [exact H0|cbn [In app]; right; left; reflexivity])
           end.
  all: try match goal with
           | H0 : (k_fork _ =? 0) = false |- _ =>
             apply Z.eqb_neq in H0; contradiction
           end.
  - match goal with
    | H1 : (k_fork _ =? -1) = true |- _ => apply Z.eqb_eq in H1; lia
    end.
  - pose proof (VerifyScript_only_logs _ _ _ _ _ Hv) as Hlog.
    trace_member Hin.
    rewrite forallb_forall in Hlog. apply Hlog in Hin. discriminate Hin.
Qed.

Lemma ExecuteScript_child_never_returns_witness :
  Exits EX_NOPERM = Exits (A := AuthorizationResult) EX_NOPERM
  \/ Exits EX_NOPERM = Exits (A := AuthorizationResult) EX_OSERR
  \/ Exits EX_NOPERM
     = Execs (A := AuthorizationResult)
         (scriptPath kRunAfterHomedirMount kRunAsUser)
         [scriptPath kRunAfterHomedirMount kRunAsUser;
          pretty (int_of_uid_t 501)].
Proof.
  eassert (ExecuteScript 5 (with_fork denying_kernel 0)
             (scriptPath kRunAfterHomedirMount kRunAsUser) 501 20
           = Some (_, _)) as E by (vm_compute; reflexivity).
  apply (proj1 (ExecuteScript_child_never_returns _ _ _ _ _ _ _ E)).
  - reflexivity.
  - cbn [In]. right. left. reflexivity.
Defined.

Lemma ExecuteScript_wait_inv fuel k path uid gid o tr :
  ExecuteScript fuel k path uid gid = Some (o, tr) ->
  (forall pid, In (ev_waitpid pid) tr ->
     pid = k_fork k /\ pid <> -1 /\ pid <> 0 /\ In ev_fork tr)
  /\ (o = Returns kAuthorizationResultDeny ->
      In (ev_waitpid (k_fork k)) tr).
Proof.
  intros E. ExecuteScript_branches E.
  all: split; [intros pid Hin|intros Ho; try discriminate Ho].
  all: try (trace_member Hin).
  all: try match goal with
           | Hfd : mark_stray_descriptors _ = _, H : In _ _ |- _ =>
             destruct (fd_trace_not _ _ _ _ Hfd H) as [?|[? ?]];
               discriminate
           end.
  all: try match goal with
           | H : ev_waitpid _ = ev_waitpid _ |- _ =>
             injection H as <-;
               repeat match goal with
                      | H0 : (k_fork _ =? _) = false |- _ =>
                        apply Z.eqb_neq in H0
                      end;
               repeat split; auto; cbn [In app]; right; left; reflexivity
           end.
  all: try (cbn [In app]; rewrite ?in_app_iff; cbn [In]; tauto).
  pose proof (VerifyScript_only_logs _ _ _ _ _ Hv) as Hlog.
  rewrite forallb_forall in Hlog. apply Hlog in Hin. discriminate Hin.
Qed.

(** waitpid is called only after a fork that gave a child, and only on
    the pid of that child; Deny is never returned without it. *)
Theorem ExecuteScript_waits_for_its_child fuel k path uid gid o tr :
  ExecuteScript fuel k path uid gid = Some (o, tr) ->
  (forall pid, In (ev_waitpid pid) tr ->
     pid = k_fork k /\ pid <> -1 /\ pid <> 0 /\ In ev_fork tr)
  /\ (o = Returns kAuthorizationResultDeny ->
      In (ev_waitpid (k_fork k)) tr).
Proof. apply ExecuteScript_wait_inv. Qed.

Lemma ExecuteScript_waits_for_its_child_witness :
  In (ev_waitpid (k_fork script_denies_kernel))
    [asl_log ASL_LEVEL_NOTICE "Executing %s as uid %d"; ev_fork;
     asl_log ASL_LEVEL_DEBUG "Waiting for child with pid %d";
     ev_waitpid child_pid;
     asl_log ASL_LEVEL_WARNING "%s exited with status %d";
     asl_log ASL_LEVEL_NOTICE "%s denied authorization"].
Proof.
  eassert (ExecuteScript 5 script_denies_kernel
             (scriptPath kRunAfterHomedirMount kRunAsUser) 501 20
           = Some (_, _)) as E by (vm_compute; reflexivity).
  apply (proj2 (ExecuteScript_waits_for_its_child _ _ _ _ _ _ _ E)).
  reflexivity.
Defined.

Lemma credential_test uid gid :
  negb (uid =? 0) || negb (gid =? 0) = false <-> uid = 0 /\ gid = 0.
Proof.
  rewrite orb_false_iff, !negb_false_iff, !Z.eqb_eq. reflexivity.
Qed.

Lemma ExecuteScript_identity_kept fuel k path uid gid o tr :
  ExecuteScript fuel k path uid gid = Some (o, tr) ->
  k_fork k <> 0 \/ (uid = 0 /\ gid = 0) ->
  forall e, In e tr -> is_credential_change e = false.
Proof.
  intros E Hcase e Hin.
  destruct (negb (uid =? 0) || negb (gid =? 0)) eqn:Hc.
  - assert (k_fork k <> 0) as Hf.
    { destruct Hcase as [?|Hz]; [assumption|].
      apply credential_test in Hz. congruence. }
    apply Z.eqb_neq in Hf. clear Hcase.
    ExecuteScript_branches E; try congruence;
      try (trace_member Hin; subst e; reflexivity).
    pose proof (VerifyScript_only_logs _ _ _ _ _ Hv) as Hlog.
    rewrite forallb_forall in Hlog.
    trace_member Hin; [|subst e; reflexivity].
    apply Hlog in Hin. destruct e; try discriminate Hin; reflexivity.
  - clear Hcase.
    ExecuteScript_branches E; rewrite ?Hc in Hin;
      trace_member Hin; try (subst e; reflexivity).
    all: try match goal with
             | Hfd : mark_stray_descriptors _ = _, H : In _ _ |- _ =>
               destruct (fd_trace_not _ _ _ _ Hfd H) as [?|[? ?]];
                 destruct e; try discriminate; reflexivity
             end.
    pose proof (VerifyScript_only_logs _ _ _ _ _ Hv) as Hlog.
    rewrite forallb_forall in Hlog.
    apply Hlog in Hin. destruct e; try discriminate Hin; reflexivity.
Qed.

(** The caller's process never changes its own identity, and for the
    target (0, 0) nobody does.  For any other target the forked child
    calls setgid(gid) and then setuid(uid), once each, right after the
    fork: before a descriptor is touched and before anything is
    executed. *)
Theorem ExecuteScript_credentials fuel k path uid gid o tr :
  ExecuteScript fuel k path uid gid = Some (o, tr) ->
  (k_fork k <> 0 \/ (uid = 0 /\ gid = 0) ->
   forall e, In e tr -> is_credential_change e = false)
  /\ (k_fork k = 0 -> In ev_fork tr -> uid <> 0 \/ gid <> 0 ->
      exists post,
        tr = [asl_log ASL_LEVEL_NOTICE "Executing %s as uid %d"; ev_fork;
              ev_setgid gid; ev_setuid uid] ++ post
        /\ forall e, In e post -> is_credential_change e = false).
Proof.
  intros E. split.
  - apply (ExecuteScript_identity_kept _ _ _ _ _ _ _ E).
  - intros Hf Hfork Hne.
    assert (negb (uid =? 0) || negb (gid =? 0) = true) as Hc.
    { destruct (negb (uid =? 0) || negb (gid =? 0)) eqn:Hc; [reflexivity|].
      apply credential_test in Hc. lia. }
    unfold ExecuteScript in E. rewrite Hf in E.
    destruct (VerifyScript fuel (k_fs k) path) as [[[|] trv]|] eqn:Hv;
      [| |discriminate E].
    + pose proof (VerifyScript_true_no_log _ _ _ _ Hv). subst trv.
      change (0 =? -1) with false in E. change (0 =? 0) with true in E.
      cbn iota in E. rewrite Hc in E.
      destruct (mark_stray_descriptors k) as [[|] tr_fd] eqn:Hfd;
        [destruct (k_execl k path _)|]; injection E as <- <-;
        cbn [app]; rewrite <- ?app_assoc; cbn [app];
        eexists; (split; [reflexivity|]); intros e Hin; trace_member Hin;
        try (subst e; reflexivity);
        destruct (fd_trace_not _ _ _ _ Hfd Hin) as [?|[? ?]];
        destruct e; try discriminate; reflexivity.
    + injection E as <- <-.
      pose proof (VerifyScript_only_logs _ _ _ _ _ Hv) as Hlog.
      rewrite forallb_forall in Hlog.
      trace_member Hfork. apply Hlog in Hfork. discriminate Hfork.
Qed.

Lemma ExecuteScript_credentials_witness :
  exists post,
    [asl_log ASL_LEVEL_NOTICE "Executing %s as uid %d"; ev_fork;
     ev_setgid 20; ev_setuid 501; ev_fcntl_cloexec 3; ev_fcntl_cloexec 4;
     asl_log ASL_LEVEL_ERR
       "Marking file descriptor %ld for closing failed with errno %d"]
    = [asl_log ASL_LEVEL_NOTICE "Executing %s as uid %d"; ev_fork;
       ev_setgid 20; ev_setuid 501] ++ post
    /\ forall e, In e post -> is_credential_change e = false.
Proof.
  eassert (ExecuteScript 5 (with_fork denying_kernel 0)
             (scriptPath kRunAfterHomedirMount kRunAsUser) 501 20
           = Some (_, _)) as E by (vm_compute; reflexivity).
  apply (proj2 (ExecuteScript_credentials _ _ _ _ _ _ _ E)).
  - reflexivity.
  - cbn [In]. right. left. reflexivity.
  - left. discriminate.
Defined.

(** ** The uid argument determines the uid *)

Lemma int_of_uid_t_round_trip uid :
  0 <= uid < UINT32_MOD -> to_uid_t (int_of_uid_t uid) = uid.
Proof.
  unfold int_of_uid_t, to_uid_t, UINT32_MOD, INT32_MAX. intros H.
  rewrite (Z.mod_small uid) by lia.
  destruct (Z.leb_spec uid 2147483647).
  - apply Z.mod_small. lia.
  - replace (uid - 4294967296) with (uid + (-1) * 4294967296) by lia.
    rewrite Z.mod_add by lia. apply Z.mod_small. lia.
Qed.

(** Two uid_t values never get the same argument text: the script can
    tell every uid from every other, also above INT_MAX, where the text
    is negative. *)
Theorem uidStr_injective uid uid' :
  0 <= uid < UINT32_MOD -> 0 <= uid' < UINT32_MOD ->
  snprintf 21 (pretty (int_of_uid_t uid))
  = snprintf 21 (pretty (int_of_uid_t uid')) ->
  uid = uid'.
Proof.
  intros H H' E. rewrite !uidStr_not_truncated in E.
  apply (inj pretty) in E.
  rewrite <- (int_of_uid_t_round_trip uid H),
          <- (int_of_uid_t_round_trip uid' H'), E.
  reflexivity.
Qed.

Lemma uidStr_injective_witness : 4294967294 = 4294967294.
Proof.
  apply (uidStr_injective 4294967294 4294967294).
  - vm_compute. split; [discriminate|reflexivity].
  - vm_compute. split; [discriminate|reflexivity].
  - reflexivity.
Defined.

(** ** MechanismInvoke: the shape of a run *)

Lemma ExecuteScript_events fuel k path uid gid o tr e :
  ExecuteScript fuel k path uid gid = Some (o, tr) ->
  In e tr -> is_SetResult e = false /\ is_GetContextValue e = false.
Proof.
  intros E Hin. ExecuteScript_branches E; trace_member Hin;
    try (subst e; split; reflexivity).
  all: try match goal with
           | Hfd : mark_stray_descriptors _ = _, H : In _ _ |- _ =>
             destruct (fd_trace_not _ _ _ _ Hfd H) as [?|[? ?]];
               destruct e; try discriminate; split; reflexivity
           end.
  pose proof (VerifyScript_only_logs _ _ _ _ _ Hv) as Hlog.
  rewrite forallb_forall in Hlog.
  apply Hlog in Hin. destruct e; try discriminate Hin; split; reflexivity.
Qed.

(** The shape of every run of [MechanismInvoke] on a valid mechanism: the
    identity is resolved ([pre]), the script is left out or
    [ExecuteScript] runs ([tr_exec]), and if that returned the decision
    is reported ([post]). *)
Lemma MechanismInvoke_inv fuel k m plugin o tr :
  fPlugin m = Some plugin -> MechanismValid (Some m) = true ->
  MechanismInvoke fuel k (Some m) = Some (o, tr) ->
  (fContext m = kRunAsUser /\ fCallbacks plugin = None /\ o = Aborts
   /\ forallb is_log tr = true)
  \/ exists pre uid gid o' tr_exec post,
       tr = pre ++ tr_exec ++ post
       /\ (forall e, In e pre ->
             is_log e = true
             \/ (is_GetContextValue e = true /\ fContext m = kRunAsUser))
       /\ (fContext m = kRunAsRoot -> uid = 0 /\ gid = 0)
       /\ ((o' = Returns kAuthorizationResultAllow
            /\ forallb is_log tr_exec = true)
           \/ ExecuteScript fuel k
                (scriptPath (fPhase m) (fContext m)) uid gid
              = Some (o', tr_exec))
       /\ match o' with
          | Returns r =>
            (fCallbacks plugin = None /\ o = Aborts /\ post = [])
            \/ (exists cb logs,
                  fCallbacks plugin = Some cb
                  /\ o = Returns (AuthorizationResult_code r)
                  /\ post = ev_SetResult r :: logs
                  /\ forallb is_log logs = true)
          | Exits s => o = Exits s /\ post = []
          | Execs p a => o = Execs p a /\ post = []
          | Aborts => o = Aborts /\ post = []
          end.
Proof.
  intros Hplugin Hvalid E. unfold MechanismInvoke in E.
  rewrite Hplugin, Hvalid in E. cbn [negb] in E.
  assert (forall (pre te : list event) o',
            match o' with
            | Returns result =>
              match fCallbacks plugin with
              | None => Some (Aborts, pre ++ te)
              | Some callbacks =>
                Some (Returns (AuthorizationResult_code result),
                      (if negb (SetResult callbacks (fEngine m) result
                                =? errAuthorizationSuccess)
                       then (pre ++ te ++ [ev_SetResult result])
                            ++ [asl_log ASL_LEVEL_ERR
                         "Setting authorization result failed with error %d"]
                       else pre ++ te ++ [ev_SetResult result])
                      ++ [asl_log ASL_LEVEL_DEBUG
                            "LoginScriptPlugin:MechanismInvoke: result=%d"])
              end
            | Exits status => Some (Exits status, pre ++ te)
            | Execs p a => Some (Execs p a, pre ++ te)
            | Aborts => Some (Aborts, pre ++ te)
            end = Some (o, tr) ->
            exists post,
              tr = pre ++ te ++ post
              /\ match o' with
                 | Returns r =>
                   (fCallbacks plugin = None /\ o = Aborts /\ post = [])
                   \/ (exists cb logs,
                         fCallbacks plugin = Some cb
                         /\ o = Returns (AuthorizationResult_code r)
                         /\ post = ev_SetResult r :: logs
                         /\ forallb is_log logs = true)
                 | Exits s => o = Exits s /\ post = []
                 | Execs p a => o = Execs p a /\ post = []
                 | Aborts => o = Aborts /\ post = []
                 end) as Htail.
  { intros pre te o' H. destruct o' as [r|s|p a|].
    - destruct (fCallbacks plugin) as [cb|].
      + destruct (negb (SetResult cb (fEngine m) r =? errAuthorizationSuccess));
          injection H as <- <-; eexists;
          (split; [rewrite <- ?app_assoc; cbn [app]; reflexivity|]);
          right; eexists _, _; repeat split; reflexivity.
      + injection H as <- <-. exists []. rewrite app_nil_r. auto.
    - injection H as <- <-. exists []. rewrite app_nil_r. auto.
    - injection H as <- <-. exists []. rewrite app_nil_r. auto.
    - injection H as <- <-. exists []. rewrite app_nil_r. auto. }
  pose (log0 := asl_log ASL_LEVEL_DEBUG
                 "LoginScriptPlugin:MechanismInvoke: inMechanism=%p").
  destruct (fContext m) eqn:Hctx; cbn [userContext_eqb] in E;
    [|destruct (fCallbacks plugin) as [cb|] eqn:Hcb;
      [|injection E as <- <-; left; repeat split; reflexivity]];
    cbv zeta in E; right;
    [pose (pre := [log0])
    |pose (pre := [log0]
                  ++ [ev_GetContextValue "uid"; ev_GetContextValue "gid"])];
    exists pre;
    match type of E with
    | context [if ?c then Some (Returns _, ?w)
               else ExecuteScript _ _ ?p ?u ?g] =>
      exists u, g;
      destruct c eqn:Hc;
      [ exists (Returns kAuthorizationResultAllow), w;
        apply (Htail pre w (Returns kAuthorizationResultAllow)) in E
      | destruct (ExecuteScript fuel k p u g) as [[o' tr_exec]|] eqn:Hex;
        [exists o', tr_exec; apply (Htail pre tr_exec o') in E
        |discriminate E] ]
    end;
    destruct E as (post & -> & Hpost); exists post;
    (split; [reflexivity|]); (split;
     [intros e He; subst pre; trace_member He; subst e; auto|]); (split;
     [intros; try discriminate; auto|]); (split; [|exact Hpost]); auto.
  all: vm_compute in Hc; discriminate Hc.
Qed.

Lemma filter_none (f : event -> bool) (l : list event) :
  (forall e, In e l -> f e = false) -> List.filter f l = [].
Proof.
  induction l as [|x l IH]; intros H; [reflexivity|].
  cbn [List.filter]. rewrite (H x) by (left; reflexivity).
  apply IH. intros e He. apply H. right. exact He.
Qed.

Lemma log_is_not e :
  is_log e = true ->
  is_SetResult e = false /\ is_GetContextValue e = false
  /\ is_credential_change e = false /\ is_spawn e = false.
Proof. destruct e; try discriminate; repeat split; reflexivity. Qed.

Lemma logs_forallb l e : forallb is_log l = true -> In e l -> is_log e = true.
Proof. intros H. rewrite forallb_forall in H. apply H. Qed.

(** The host hears the decision exactly once when [MechanismInvoke]
    returns, and the value returned is the code of the decision reported,
    whatever status SetResult gave back.  A process that does not return
    from it (the forked child, an abnormal end) reports nothing. *)
Theorem MechanismInvoke_reports_once fuel k inMechanism o tr :
  MechanismInvoke fuel k inMechanism = Some (o, tr) ->
  match o with
  | Returns code =>
    exists r, code = AuthorizationResult_code r
              /\ List.filter is_SetResult tr = [ev_SetResult r]
  | _ => List.filter is_SetResult tr = []
  end.
Proof.
  intros E. destruct inMechanism as [m|]; [|injection E as <- <-; reflexivity].
  destruct (fPlugin m) as [plugin|] eqn:Hplugin;
    [|unfold MechanismInvoke in E; rewrite Hplugin in E;
      injection E as <- <-; reflexivity].
  destruct (MechanismValid (Some m)) eqn:Hvalid;
    [|unfold MechanismInvoke in E; rewrite Hplugin, Hvalid in E;
      injection E as <- <-; reflexivity].
  destruct (MechanismInvoke_inv _ _ _ _ _ _ Hplugin Hvalid E)
    as [(_ & _ & -> & Hlog)
       |(pre & uid & gid & o' & te & post & -> & Hpre & _ & Hex & Hpost)].
  { apply filter_none. intros e He.
    apply (log_is_not _ (logs_forallb _ _ Hlog He)). }
  assert (List.filter is_SetResult pre = []) as Fpre.
  { apply filter_none. intros e He.
    destruct (Hpre e He) as [Hl|[Hg _]]; [apply (log_is_not _ Hl)|].
    destruct e; try discriminate Hg; reflexivity. }
  assert (List.filter is_SetResult te = []) as Fte.
  { apply filter_none. intros e He. destruct Hex as [[_ Hl]|Hex].
    - apply (log_is_not _ (logs_forallb _ _ Hl He)).
    - apply (ExecuteScript_events _ _ _ _ _ _ _ _ Hex He). }
  rewrite !List.filter_app, Fpre, Fte. cbn [app].
  destruct o' as [r|s|p a|].
  - destruct Hpost as [(_ & -> & ->)|(cb & logs & _ & -> & -> & Hl)];
      [reflexivity|].
    exists r. split; [reflexivity|]. cbn [List.filter is_SetResult].
    f_equal. apply filter_none. intros e He.
    apply (log_is_not _ (logs_forallb _ _ Hl He)).
  - destruct Hpost as [-> ->]. reflexivity.
  - destruct Hpost as [-> ->]. reflexivity.
  - destruct Hpost as [-> ->]. reflexivity.
Qed.

Lemma MechanismInvoke_reports_once_witness :
  exists r,
    1 = AuthorizationResult_code r
    /\ List.filter is_SetResult
         [asl_log ASL_LEVEL_DEBUG
            "LoginScriptPlugin:MechanismInvoke: inMechanism=%p";
          ev_GetContextValue "uid"; ev_GetContextValue "gid";
          asl_log ASL_LEVEL_NOTICE "Executing %s as uid %d"; ev_fork;
          asl_log ASL_LEVEL_DEBUG "Waiting for child with pid %d";
          ev_waitpid child_pid;
          asl_log ASL_LEVEL_WARNING "%s exited with status %d";
          asl_log ASL_LEVEL_NOTICE "%s denied authorization";
          ev_SetResult kAuthorizationResultDeny;
          asl_log ASL_LEVEL_DEBUG
            "LoginScriptPlugin:MechanismInvoke: result=%d"]
       = [ev_SetResult r].
Proof.
  eassert (MechanismInvoke 5 script_denies_kernel
             (Some (example_mechanism (user_context 501 20)
                      kRunAsUser kRunAfterHomedirMount))
           = Some (_, _)) as E by (vm_compute; reflexivity).
  exact (MechanismInvoke_reports_once _ _ _ _ _ E).
Defined.

(** In the root context the context store is never asked, and no process,
    not even the forked child, changes its identity. *)
Theorem MechanismInvoke_root_context fuel k m o tr :
  fContext m = kRunAsRoot ->
  MechanismInvoke fuel k (Some m) = Some (o, tr) ->
  forall e, In e tr ->
    is_GetContextValue e = false /\ is_credential_change e = false.
Proof.
  intros Hroot E e He.
  destruct (fPlugin m) as [plugin|] eqn:Hplugin;
    [|unfold MechanismInvoke in E; rewrite Hplugin in E;
      injection E as <- <-; destruct He].
  destruct (MechanismValid (Some m)) eqn:Hvalid;
    [|unfold MechanismInvoke in E; rewrite Hplugin, Hvalid in E;
      injection E as <- <-; destruct He as [<-|[]]; split; reflexivity].
  destruct (MechanismInvoke_inv _ _ _ _ _ _ Hplugin Hvalid E)
    as [(Hu & _)
       |(pre & uid & gid & o' & te & post & -> & Hpre & Hid & Hex & Hpost)];
    [congruence|].
  destruct (Hid Hroot) as [-> ->].
  rewrite !in_app_iff in He. destruct He as [He|[He|He]].
  - destruct (Hpre e He) as [Hl|[_ ?]]; [|congruence].
    destruct (log_is_not _ Hl) as (_ & ? & ? & _); auto.
  - destruct Hex as [[_ Hl]|Hex].
    + destruct (log_is_not _ (logs_forallb _ _ Hl He)) as (_ & ? & ? & _);
        auto.
    + split.
      * apply (ExecuteScript_events _ _ _ _ _ _ _ _ Hex He).
      * apply (ExecuteScript_identity_kept _ _ _ _ _ _ _ Hex); auto.
  - destruct o' as [r|s|p a|];
      try (destruct Hpost as [_ ->]; destruct He).
    destruct Hpost as [(_ & _ & ->)|(cb & logs & _ & _ & -> & Hl)];
      [destruct He|].
    destruct He as [<-|He]; [split; reflexivity|].
    destruct (log_is_not _ (logs_forallb _ _ Hl He)) as (_ & ? & ? & _); auto.
Qed.

Lemma MechanismInvoke_root_context_witness :
  is_GetContextValue ev_fork = false /\ is_credential_change ev_fork = false.
Proof.
  eassert (MechanismInvoke 5
             (example_kernel 0 fcntl_ok None (WaitReaped 0) 0)
             (Some (example_mechanism (user_context 501 20)
                      kRunAsRoot kRunBeforeHomedirMount))
           = Some (_, _)) as E by (vm_compute; reflexivity).
  apply (MechanismInvoke_root_context 5 _
           (example_mechanism (user_context 501 20)
              kRunAsRoot kRunBeforeHomedirMount) _ _ eq_refl E).
  cbn [In]. right. right. left. reflexivity.
Defined.

Lemma MechanismInvoke_spawn_event fuel k m o tr e :
  MechanismInvoke fuel k (Some m) = Some (o, tr) ->
  In e tr -> is_spawn e = true ->
  exists uid gid o' te,
    ExecuteScript fuel k (scriptPath (fPhase m) (fContext m)) uid gid
    = Some (o', te)
    /\ In e te
    /\ (fContext m = kRunAsRoot -> uid = 0 /\ gid = 0).
Proof.
  intros E He Hs.
  destruct (fPlugin m) as [plugin|] eqn:Hplugin;
    [|unfold MechanismInvoke in E; rewrite Hplugin in E;
      injection E as <- <-; destruct He].
  destruct (MechanismValid (Some m)) eqn:Hvalid;
    [|unfold MechanismInvoke in E; rewrite Hplugin, Hvalid in E;
      injection E as <- <-; destruct He as [<-|[]]; discriminate Hs].
  destruct (MechanismInvoke_inv _ _ _ _ _ _ Hplugin Hvalid E)
    as [(_ & _ & _ & Hlog)
       |(pre & uid & gid & o' & te & post & -> & Hpre & Hid & Hex & Hpost)].
  { destruct (log_is_not _ (logs_forallb _ _ Hlog He)) as (_ & _ & _ & ?).
    congruence. }
  rewrite !in_app_iff in He. destruct He as [He|[He|He]].
  - destruct (Hpre e He) as [Hl|[Hg _]].
    + destruct (log_is_not _ Hl) as (_ & _ & _ & ?). congruence.
    + destruct e; discriminate.
  - destruct Hex as [[_ Hl]|Hex].
    + destruct (log_is_not _ (logs_forallb _ _ Hl He)) as (_ & _ & _ & ?).
      congruence.
    + exists uid, gid, o', te. auto.
  - destruct o' as [r|s|p a|];
      try (destruct Hpost as [_ ->]; destruct He).
    destruct Hpost as [(_ & _ & ->)|(cb & logs & _ & _ & -> & Hl)];
      [destruct He|].
    destruct He as [<-|He]; [discriminate Hs|].
    destruct (log_is_not _ (logs_forallb _ _ Hl He)) as (_ & _ & _ & ?).
    congruence.
Qed.

(** Two chains from the same path that both reach "/" are the same
    chain. *)
Lemma chain_root_unique n n' path :
  last (chain n path) = Some "/" -> last (chain n' path) = Some "/" ->
  chain n path = chain n' path.
Proof.
  revert n' path. induction n as [|n IH]; intros n' path H H';
    [discriminate|].
  destruct n' as [|n']; [discriminate|].
  cbn [chain] in *.
  destruct (String.eqb path "/") eqn:Hp; [reflexivity|].
  destruct (dirname path) as [parent|]; [|reflexivity].
  f_equal. apply IH.
  - destruct (chain n parent) as [|x l] eqn:Hch; [|exact H].
    cbn in H. injection H as ->. discriminate Hp.
  - destruct (chain n' parent) as [|x l] eqn:Hch; [|exact H'].
    cbn in H'. injection H' as ->. discriminate Hp.
Qed.

Lemma scriptPath_install_chain phase context :
  chain 5 (scriptPath phase context) = install_chain phase context.
Proof. destruct phase, context; vm_compute; reflexivity. Qed.

Lemma MechanismInvoke_fork_inv fuel k m o tr :
  MechanismInvoke fuel k (Some m) = Some (o, tr) ->
  In ev_fork tr ->
  exists rootInfo,
    lstat (k_fs k) "/" = Some rootInfo
    /\ forall q, In q (install_chain (fPhase m) (fContext m)) ->
         exists info,
           lstat (k_fs k) q = Some info
           /\ st_dev info = st_dev rootInfo
           /\ trusted_node info /\ owner_executable info.
Proof.
  intros E Hfork.
  destruct (MechanismInvoke_spawn_event _ _ _ _ _ _ E Hfork eq_refl)
    as (uid & gid & o' & te & Hex & Hin & _).
  pose proof (proj1 (ExecuteScript_spawn_inv _ _ _ _ _ _ _ Hex) Hin) as Hv.
  destruct (VerifyScript_accepts_chain _ _ _ _ Hv)
    as (_ & Hlast & rootInfo & Hroot & Hall).
  rewrite (chain_root_unique _ 5 _ Hlast (scriptPath_chain _ _)),
    scriptPath_install_chain in Hall.
  exists rootInfo. split; [exact Hroot|]. intros q Hq.
  destruct (Hall q Hq) as (info & Hinfo & Hck).
  exists info. split; [exact Hinfo|]. apply node_check_iff. exact Hck.
Qed.

(** [MechanismInvoke] forks a process only when the script of the
    mechanism, the plugin's script directory, "/Library/Application
    Support", "/Library" and "/" all exist on the device of "/", are no
    symbolic links, belong to uid 0, are not world-writable, are
    group-writable only under gid 0 and are executable by their owner. *)
Theorem MechanismInvoke_spawn_needs_trusted_install fuel k m o tr :
  MechanismInvoke fuel k (Some m) = Some (o, tr) ->
  In ev_fork tr ->
  exists rootInfo,
    lstat (k_fs k) "/" = Some rootInfo
    /\ forall q, In q (install_chain (fPhase m) (fContext m)) ->
         exists info,
           lstat (k_fs k) q = Some info
           /\ st_dev info = st_dev rootInfo
           /\ trusted_node info /\ owner_executable info.
Proof. apply MechanismInvoke_fork_inv. Qed.

Lemma MechanismInvoke_spawn_needs_trusted_install_witness :
  exists rootInfo,
    lstat (k_fs script_denies_kernel) "/" = Some rootInfo
    /\ forall q,
         In q (install_chain kRunAfterHomedirMount kRunAsUser) ->
         exists info,
           lstat (k_fs script_denies_kernel) q = Some info
           /\ st_dev info = st_dev rootInfo
           /\ trusted_node info /\ owner_executable info.
Proof.
  eassert (MechanismInvoke 5 script_denies_kernel
             (Some (example_mechanism (user_context 501 20)
                      kRunAsUser kRunAfterHomedirMount))
           = Some (_, _)) as E by (vm_compute; reflexivity).
  apply (MechanismInvoke_spawn_needs_trusted_install _ _ _ _ _ E).
  cbn [In]. repeat (first [left; reflexivity|right]).
Defined.

(** The only program [MechanismInvoke] ever executes is the script of the
    mechanism under the plugin's script directory, with the script path
    and the text of a uid as arguments; in the root context that text is
    "0". *)
Theorem MechanismInvoke_executes_only_the_script fuel k m o tr p argv :
  MechanismInvoke fuel k (Some m) = Some (o, tr) ->
  In (ev_execl p argv) tr ->
  p = scriptPath (fPhase m) (fContext m)
  /\ (exists uid, argv = [p; pretty (int_of_uid_t uid)])
  /\ (fContext m = kRunAsRoot -> argv = [p; "0"]).
Proof.
  intros E Hexec.
  destruct (MechanismInvoke_spawn_event _ _ _ _ _ _ E Hexec eq_refl)
    as (uid & gid & o' & te & Hex & Hin & Hroot).
  destruct (proj2 (ExecuteScript_spawn_inv _ _ _ _ _ _ _ Hex) _ _ Hin)
    as (_ & _ & -> & ->).
  split; [reflexivity|]. split; [eauto|].
  intros Hr. destruct (Hroot Hr) as [-> _]. reflexivity.
Qed.

Lemma MechanismInvoke_executes_only_the_script_witness :
  scriptPath kRunBeforeHomedirMount kRunAsRoot
  = scriptPath kRunBeforeHomedirMount kRunAsRoot
  /\ (exists uid,
        [scriptPath kRunBeforeHomedirMount kRunAsRoot; "0"]
        = [scriptPath kRunBeforeHomedirMount kRunAsRoot;
           pretty (int_of_uid_t uid)])
  /\ (kRunAsRoot = kRunAsRoot ->
      [scriptPath kRunBeforeHomedirMount kRunAsRoot; "0"]
      = [scriptPath kRunBeforeHomedirMount kRunAsRoot; "0"]).
Proof.
  eassert (MechanismInvoke 5
             (example_kernel 0 fcntl_ok None (WaitReaped 0) 0)
             (Some (example_mechanism empty_context
                      kRunAsRoot kRunBeforeHomedirMount))
           = Some (_, _)) as E by (vm_compute; reflexivity).
  apply (MechanismInvoke_executes_only_the_script _ _ _ _ _ _ _ E).
  cbn [In]. repeat (first [left; reflexivity|right]).
Defined.

(** ** Creation, and the life of a plugin *)

Lemma MechanismCreate_inv
    k inPlugin inEngine mechanismId out st stored tr :
  MechanismCreate k inPlugin inEngine mechanismId out
  = (Returns (st, stored), tr) ->
  (st = errAuthorizationSuccess
   /\ exists m, stored = Some (Some m)
                /\ MechanismValid (Some m) = true
                /\ fPlugin m = inPlugin /\ fEngine m = inEngine
                /\ PluginValid inPlugin = true)
  \/ (st = errAuthorizationInternal
      /\ (stored = Some None \/ stored = None /\ k_malloc k = false)).
Proof.
  unfold MechanismCreate. intros E.
  destruct inPlugin as [plugin|]; [|discriminate E].
  destruct (PluginValid (Some plugin)) eqn:Hvalid; [|discriminate E].
  destruct (Z.eqb_spec inEngine 0) as [|Hengine]; [discriminate E|].
  cbn [negb] in E.
  destruct mechanismId as [id|]; [|discriminate E].
  destruct out; [|discriminate E].
  repeat match type of E with
         | context [String.eqb id ?s] => destruct (String.eqb id s)
         end;
    try (injection E as <- <- <-; right; auto; fail);
    destruct (k_malloc k) eqn:Hm; cbn [negb] in E;
    injection E as <- <- <-; try (right; auto; fail);
    left; (split; [reflexivity|]); eexists; (split; [reflexivity|]);
    unfold MechanismValid; cbn [fMagic fEngine fPlugin];
    apply Z.eqb_neq in Hengine; rewrite Hengine; auto.
Qed.

(** [MechanismCreate] answers errAuthorizationSuccess exactly when it
    stored an instance, and that instance passes [MechanismValid] and
    carries the plugin and the engine handed in; on every error return
    nothing but NULL, or nothing at all, was stored. *)
Theorem MechanismCreate_success_iff_instance
    k inPlugin inEngine mechanismId out st stored tr :
  MechanismCreate k inPlugin inEngine mechanismId out
  = (Returns (st, stored), tr) ->
  (st = errAuthorizationSuccess
   /\ exists m, stored = Some (Some m)
                /\ MechanismValid (Some m) = true
                /\ fPlugin m = inPlugin /\ fEngine m = inEngine
                /\ PluginValid inPlugin = true)
  \/ (st = errAuthorizationInternal
      /\ (stored = Some None \/ stored = None /\ k_malloc k = false)).
Proof. apply MechanismCreate_inv. Qed.

Lemma MechanismCreate_success_iff_instance_witness :
  MechanismValid
    (Some (example_mechanism empty_context kRunAsUser kRunAfterHomedirMount))
  = true.
Proof.
  destruct (MechanismCreate_success_iff_instance script_denies_kernel
              (Some (example_plugin empty_context)) example_engine
              (Some "postmount-user") (Some 1) _ _ _ eq_refl)
    as [(_ & m & [= <-] & H & _)|(H & _)]; [exact H|discriminate H].
Defined.

(** The script a created instance stands for is named after the
    mechanism id it was created from: its path is the plugin's script
    directory, a slash and that id. *)
Theorem MechanismCreate_script_name
    k inPlugin inEngine mechanismId out st m tr :
  MechanismCreate k inPlugin inEngine mechanismId out
  = (Returns (st, Some (Some m)), tr) ->
  exists id,
    mechanismId = Some id
    /\ scriptPath (fPhase m) (fContext m) = kLoginScriptDir +:+ "/" +:+ id.
Proof.
  unfold MechanismCreate. intros E.
  destruct inPlugin as [plugin|]; [|discriminate E].
  destruct (negb (PluginValid (Some plugin))); [discriminate E|].
  destruct (inEngine =? 0); [discriminate E|].
  destruct mechanismId as [id|]; [|discriminate E].
  destruct out; [|discriminate E].
  exists id. split; [reflexivity|].
  repeat match type of E with
         | context [String.eqb id ?s] =>
           destruct (String.eqb_spec id s) as [->|]
         end;
    try discriminate E;
    (destruct (negb (k_malloc k)); [discriminate E|]);
    injection E as _ <- _; vm_compute; reflexivity.
Qed.

Lemma MechanismCreate_script_name_witness :
  exists id,
    Some "premount-user" = Some id
    /\ scriptPath (fPhase (example_mechanism empty_context
                             kRunAsUser kRunBeforeHomedirMount))
         (fContext (example_mechanism empty_context
                      kRunAsUser kRunBeforeHomedirMount))
       = kLoginScriptDir +:+ "/" +:+ id.
Proof.
  exact (MechanismCreate_script_name script_denies_kernel
           (Some (example_plugin empty_context)) example_engine
           (Some "premount-user") (Some 1) _ _ _ eq_refl).
Defined.

Lemma AuthorizationPluginCreate_inv
    k log_client callbacks outPlugin outPluginInterface st stored tr :
  AuthorizationPluginCreate k log_client callbacks outPlugin
    outPluginInterface = (Returns (st, stored), tr) ->
  (st = errAuthorizationSuccess
   /\ exists plugin,
        stored = Some (plugin, gPluginInterface)
        /\ PluginValid (Some plugin) = true
        /\ fCallbacks plugin = callbacks /\ fLogClient plugin = log_client)
  \/ (st = errAuthorizationInternal /\ stored = None
      /\ (log_client = 0 \/ k_malloc k = false)).
Proof.
  unfold AuthorizationPluginCreate. intros E.
  destruct (Z.eqb_spec log_client 0) as [->|Hlog].
  { injection E as <- <- <-. right. auto. }
  destruct callbacks as [cb|]; [|discriminate E].
  destruct (kAuthorizationCallbacksVersion <=? version cb) eqn:Hver;
    [|discriminate E].
  cbn [negb] in E.
  destruct outPlugin; [|discriminate E].
  destruct outPluginInterface; [|discriminate E].
  destruct (k_malloc k) eqn:Hm; cbn [negb] in E; injection E as <- <- <-.
  - left. split; [reflexivity|]. eexists. split; [reflexivity|].
    unfold PluginValid. cbn [plugin_fMagic fCallbacks fLogClient].
    rewrite Hver. apply Z.eqb_neq in Hlog. rewrite Hlog. auto.
  - right. auto.
Qed.

(** [AuthorizationPluginCreate] answers errAuthorizationSuccess exactly
    when it stored a plugin and the dispatch table; the plugin stored
    passes [PluginValid] and holds the callbacks handed in and the log
    client just opened.  When asl_open or the allocation fails it answers
    errAuthorizationInternal and stores nothing. *)
Theorem AuthorizationPluginCreate_success_iff_plugin
    k log_client callbacks outPlugin outPluginInterface st stored tr :
  AuthorizationPluginCreate k log_client callbacks outPlugin
    outPluginInterface = (Returns (st, stored), tr) ->
  (st = errAuthorizationSuccess
   /\ exists plugin,
        stored = Some (plugin, gPluginInterface)
        /\ PluginValid (Some plugin) = true
        /\ fCallbacks plugin = callbacks /\ fLogClient plugin = log_client)
  \/ (st = errAuthorizationInternal /\ stored = None
      /\ (log_client = 0 \/ k_malloc k = false)).
Proof. apply AuthorizationPluginCreate_inv. Qed.

Lemma AuthorizationPluginCreate_success_iff_plugin_witness :
  PluginValid (Some (example_plugin empty_context)) = true.
Proof.
  destruct (AuthorizationPluginCreate_success_iff_plugin
              script_denies_kernel 1
              (Some (example_callbacks empty_context)) (Some 1) (Some 2)
              _ _ _ eq_refl)
    as [(_ & plugin & [= <-] & H & _)|(H & _)]; [exact H|discriminate H].
Defined.

(** A plugin made by [AuthorizationPluginCreate] and a mechanism made on
    it by [MechanismCreate] satisfy [PluginValid] and [MechanismValid],
    which is what the other entry points assert.  On them
    [MechanismDeactivate] calls DidDeactivate on the engine and hands back
    its status, [MechanismDestroy] frees the record, and [PluginDestroy]
    closes the log client that was opened and frees the plugin. *)
Theorem created_objects_pass_assertions
    k log_client callbacks outPlugin outPluginInterface st plugin table tr
    k' inEngine mechanismId out st' m tr' :
  AuthorizationPluginCreate k log_client callbacks outPlugin
    outPluginInterface = (Returns (st, Some (plugin, table)), tr) ->
  MechanismCreate k' (Some plugin) inEngine mechanismId out
  = (Returns (st', Some (Some m)), tr') ->
  PluginValid (Some plugin) = true
  /\ MechanismValid (Some m) = true
  /\ (exists cb,
        callbacks = Some cb
        /\ MechanismDeactivate (Some m)
           = (Returns (DidDeactivate cb inEngine),
              [mech (asl_log ASL_LEVEL_DEBUG
                 "LoginScriptPlugin:MechanismDeactivate: inMechanism=%p");
               ev_DidDeactivate inEngine;
               mech (asl_log ASL_LEVEL_DEBUG
                 "LoginScriptPlugin:MechanismDeactivate: err=%ld")]))
  /\ MechanismDestroy (Some m)
     = (Returns errAuthorizationSuccess,
        [mech (asl_log ASL_LEVEL_DEBUG
                 "LoginScriptPlugin:MechanismDestroy: inMechanism=%p");
         ev_free])
  /\ PluginDestroy (Some plugin)
     = (Returns errAuthorizationSuccess, [ev_asl_close log_client; ev_free]).
Proof.
  intros Hp Hm.
  destruct (AuthorizationPluginCreate_inv _ _ _ _ _ _ _ _ Hp)
    as [(_ & plugin0 & [= <- _] & Hpv & Hcb & Hlc)|(_ & [=] & _)].
  destruct (MechanismCreate_inv _ _ _ _ _ _ _ _ Hm)
    as [(_ & m0 & [= <-] & Hmv & Hmp & Hme & _)|(_ & [[=]|[[=] _]])].
  assert (exists cb, callbacks = Some cb) as [cb ->].
  { unfold PluginValid in Hpv. rewrite Hcb in Hpv.
    destruct callbacks; [eauto|]. rewrite andb_false_r in Hpv.
    discriminate Hpv. }
  split; [exact Hpv|]. split; [exact Hmv|]. repeat split.
  - exists cb. split; [reflexivity|].
    unfold MechanismDeactivate. rewrite Hmp, Hmv, Hcb, Hme. reflexivity.
  - unfold MechanismDestroy. rewrite Hmp, Hmv. reflexivity.
  - unfold PluginDestroy. rewrite Hpv, Hlc. reflexivity.
Qed.

Lemma created_objects_pass_assertions_witness :
  PluginDestroy (Some (example_plugin empty_context))
  = (Returns errAuthorizationSuccess, [ev_asl_close 1; ev_free]).
Proof.
  exact (proj2 (proj2 (proj2 (proj2
           (created_objects_pass_assertions script_denies_kernel 1
              (Some (example_callbacks empty_context)) (Some 1) (Some 2)
              _ _ _ _ script_denies_kernel example_engine
              (Some "postmount-user") (Some 1) _ _ _ eq_refl eq_refl))))).
Defined.

(** ** Denial end to end *)

(** The host is told Deny only after a process was forked and waited for,
    hence only when the script of the mechanism and every directory above
    it passed every test of [VerifyScript]: a script that anyone but root
    could have planted or changed never denies a login. *)
Theorem MechanismInvoke_deny_needs_trusted_install fuel k m o tr :
  MechanismInvoke fuel k (Some m) = Some (o, tr) ->
  In (ev_SetResult kAuthorizationResultDeny) tr ->
  o = Returns 1
  /\ In ev_fork tr /\ In (ev_waitpid (k_fork k)) tr
  /\ exists rootInfo,
       lstat (k_fs k) "/" = Some rootInfo
       /\ forall q, In q (install_chain (fPhase m) (fContext m)) ->
            exists info,
              lstat (k_fs k) q = Some info
              /\ st_dev info = st_dev rootInfo
              /\ trusted_node info /\ owner_executable info.
Proof.
  intros E Hdeny.
  destruct (fPlugin m) as [plugin|] eqn:Hplugin;
    [|unfold MechanismInvoke in E; rewrite Hplugin in E;
      injection E as <- <-; destruct Hdeny].
  destruct (MechanismValid (Some m)) eqn:Hvalid;
    [|unfold MechanismInvoke in E; rewrite Hplugin, Hvalid in E;
      injection E as <- <-; destruct Hdeny as [[=]|[]]].
  pose proof E as E0.
  destruct (MechanismInvoke_inv _ _ _ _ _ _ Hplugin Hvalid E)
    as [(_ & _ & _ & Hlog)
       |(pre & uid & gid & o' & te & post & -> & Hpre & _ & Hex & Hpost)].
  { apply (logs_forallb _ _ Hlog) in Hdeny. discriminate Hdeny. }
  assert (o' = Returns kAuthorizationResultDeny
          /\ o = Returns 1) as [-> ->].
  { rewrite !in_app_iff in Hdeny. destruct Hdeny as [He|[He|He]].
    - destruct (Hpre _ He) as [?|[? _]]; discriminate.
    - destruct Hex as [[_ Hl]|Hex].
      + apply (logs_forallb _ _ Hl) in He. discriminate He.
      + destruct (ExecuteScript_events _ _ _ _ _ _ _ _ Hex He).
        discriminate.
    - destruct o' as [r|s|p a|];
        try (destruct Hpost as [_ ->]; destruct He).
      destruct Hpost as [(_ & _ & ->)|(cb & logs & _ & -> & -> & Hl)];
        [destruct He|].
      destruct He as [[= ->]|He]; [split; reflexivity|].
      apply (logs_forallb _ _ Hl) in He. discriminate He. }
  destruct Hex as [[[=] _]|Hex].
  pose proof (proj2 (ExecuteScript_wait_inv _ _ _ _ _ _ _ Hex) eq_refl)
    as Hwait.
  destruct (proj1 (ExecuteScript_wait_inv _ _ _ _ _ _ _ Hex) _ Hwait)
    as (_ & _ & _ & Hfork).
  assert (In ev_fork (pre ++ te ++ post)) as Hfork'
    by (rewrite !in_app_iff; auto).
  split; [reflexivity|]. split; [exact Hfork'|]. split.
  - rewrite !in_app_iff. auto.
  - apply (MechanismInvoke_fork_inv _ _ _ _ _ E0 Hfork').
Qed.

Lemma MechanismInvoke_deny_needs_trusted_install_witness :
  In ev_fork
    [asl_log ASL_LEVEL_DEBUG
       "LoginScriptPlugin:MechanismInvoke: inMechanism=%p";
     ev_GetContextValue "uid"; ev_GetContextValue "gid";
     asl_log ASL_LEVEL_NOTICE "Executing %s as uid %d"; ev_fork;
     asl_log ASL_LEVEL_DEBUG "Waiting for child with pid %d";
     ev_waitpid child_pid;
     asl_log ASL_LEVEL_WARNING "%s exited with status %d";
     asl_log ASL_LEVEL_NOTICE "%s denied authorization";
     ev_SetResult kAuthorizationResultDeny;
     asl_log ASL_LEVEL_DEBUG "LoginScriptPlugin:MechanismInvoke: result=%d"].
Proof.
  eassert (MechanismInvoke 5 script_denies_kernel
             (Some (example_mechanism (user_context 501 20)
                      kRunAsUser kRunAfterHomedirMount))
           = Some (_, _)) as E by (vm_compute; reflexivity).
  refine (proj1 (proj2
            (MechanismInvoke_deny_needs_trusted_install _ _ _ _ _ E _))).
  cbn [In]. repeat (first [left; reflexivity|right]).
Defined.

(** ** The depth of the verification *)

(** On each of the four script paths the recursion of [VerifyScript]
    stops within five calls, on every file system: the paths are absolute
    and four levels below "/". *)
Theorem scriptPath_verification_returns fs phase context :
  exists b tr, VerifyScript 5 fs (scriptPath phase context) = Some (b, tr).
Proof. apply VerifyScript_returns, scriptPath_chain. Qed.
